(** * Off-hours filter of cloud-custodian: schedule parser and time-window
      evaluator ([c7n/offhours.py]).

    The module is Python 2 code ([str.translate(None, ...)], [filter]
    returning a list); strings are byte strings and are modelled by
    [string].  Exceptions are explicit ([result]); the parser cache and the
    clock are threaded through the evaluator as state ([world], [M]); the
    timezone database and the clock readings are inputs ([system]).
    Logging calls have no effect on the result and are left out. *)

From Stdlib Require Import ZArith String Ascii List Bool Lia.
From stdpp Require Import base option list gmap strings.

Local Open Scope string_scope.
Local Open Scope Z_scope.

(** ** Exceptions *)

Inductive exn : Type :=
| ValueError
| IndexError
| AttributeError
| TypeError.

Inductive result (A : Type) : Type :=
| Returns (a : A)
| Raises (e : exn).

Arguments Returns {A} a.
Arguments Raises {A} e.

Definition rbind {A B : Type} (r : result A) (k : A -> result B) : result B :=
  match r with
  | Returns a => k a
  | Raises e => Raises e
  end.

Declare Scope result_scope.
Delimit Scope result_scope with result.
Notation "'let?' x ':=' r 'in' k" := (rbind r (fun x => k))
  (at level 10, x name, r at level 100, k at level 200) : result_scope.

(** ** Python string primitives *)

Module Py.

Definition mem_ascii (c : ascii) (chars : string) : bool :=
  existsb (Ascii.eqb c) (list_ascii_of_string chars).

(** [str.lower()] in the C locale. *)
Definition lower_ascii (c : ascii) : ascii :=
  let n := nat_of_ascii c in
  if ((65 <=? n) && (n <=? 90))%nat then ascii_of_nat (n + 32) else c.

Fixpoint lower (s : string) : string :=
  match s with
  | EmptyString => EmptyString
  | String c s' => String (lower_ascii c) (lower s')
  end.

(** [s.translate(None, chars)]: delete every character of [chars]. *)
Fixpoint translate_del (chars : string) (s : string) : string :=
  match s with
  | EmptyString => EmptyString
  | String c s' =>
      if mem_ascii c chars then translate_del chars s'
      else String c (translate_del chars s')
  end.

Fixpoint lstrip (chars : string) (s : string) : string :=
  match s with
  | EmptyString => EmptyString
  | String c s' => if mem_ascii c chars then lstrip chars s' else s
  end.

Fixpoint rstrip (chars : string) (s : string) : string :=
  match s with
  | EmptyString => EmptyString
  | String c s' =>
      match rstrip chars s' with
      | EmptyString => if mem_ascii c chars then EmptyString else String c EmptyString
      | r => String c r
      end
  end.

(** The one-character string made of a double quote. *)
Definition dquote : string := String (ascii_of_nat 34) EmptyString.

(** [s.strip(chars)] *)
Definition strip (chars : string) (s : string) : string :=
  rstrip chars (lstrip chars s).

Definition snoc (s : string) (c : ascii) : string := s +:+ String c EmptyString.

(** [s.split(sep)] for a non-empty separator: the pieces between the
    non-overlapping occurrences of [sep], scanned left to right.  [skip]
    counts the characters of a matched separator still to be passed over,
    [cur] is the piece being read. *)
Fixpoint split_from (sep : string) (skip : nat) (cur : string) (s : string)
  : list string :=
  match s with
  | EmptyString => [cur]
  | String c s' =>
      match skip with
      | S k => split_from sep k cur s'
      | O =>
          if String.prefix sep s
          then cur :: split_from sep (String.length sep - 1) EmptyString s'
          else split_from sep 0 (snoc cur c) s'
      end
  end.

Definition split (sep : string) (s : string) : list string :=
  split_from sep 0 EmptyString s.

(** The characters [str.isspace] accepts: space, \t, \n, \v, \f, \r. *)
Definition whitespace : string :=
  String (ascii_of_nat 32) (String (ascii_of_nat 9) (String (ascii_of_nat 10)
    (String (ascii_of_nat 11) (String (ascii_of_nat 12)
      (String (ascii_of_nat 13) EmptyString))))).

Definition flush (cur : string) (rest : list string) : list string :=
  match cur with
  | EmptyString => rest
  | _ => cur :: rest
  end.

(** [s.split()] without a separator: split on runs of whitespace, no empty
    pieces. *)
Fixpoint split_ws_from (cur : string) (s : string) : list string :=
  match s with
  | EmptyString => flush cur []
  | String c s' =>
      if mem_ascii c whitespace then flush cur (split_ws_from EmptyString s')
      else split_ws_from (snoc cur c) s'
  end.

Definition split_ws (s : string) : list string := split_ws_from EmptyString s.

(** [filter(None, l)] on a list of strings keeps the non-empty ones. *)
Definition filter_none (l : list string) : list string :=
  List.filter (fun s => negb (String.eqb s EmptyString)) l.

Definition digit_val (c : ascii) : option Z :=
  let n := nat_of_ascii c in
  if ((48 <=? n) && (n <=? 57))%nat then Some (Z.of_nat (n - 48)) else None.

Fixpoint digits_val (acc : Z) (s : string) : option Z :=
  match s with
  | EmptyString => Some acc
  | String c s' =>
      match digit_val c with
      | Some d => digits_val (10 * acc + d) s'
      | None => None
      end
  end.

(** [int(s)] on a byte string, base 10: surrounding whitespace is dropped,
    one sign is allowed, then one or more decimal digits; anything else is
    a [ValueError]. *)
Definition int (s : string) : result Z :=
  let s := strip whitespace s in
  let '(sign, body) :=
    match s with
    | String "-"%char r => (-1, r)
    | String "+"%char r => (1, r)
    | _ => (1, s)
    end in
  match body with
  | EmptyString => Raises ValueError
  | _ => match digits_val 0 body with
         | Some n => Returns (sign * n)
         | None => Raises ValueError
         end
  end.

(** [x in l] for a list of strings. *)
Definition mem (x : string) (l : list string) : bool :=
  existsb (String.eqb x) l.

(** [l.index(x)] *)
Fixpoint index (x : string) (l : list string) : result nat :=
  match l with
  | [] => Raises ValueError
  | y :: l' =>
      if String.eqb y x then Returns O
      else match index x l' with
           | Returns n => Returns (S n)
           | Raises e => Raises e
           end
  end.

(** [l[i:j]] for indices that are not negative. *)
Definition slice {A : Type} (i j : nat) (l : list A) : list A :=
  drop i (take j l).

(** [range(a, b)] *)
Definition range (a b : Z) : list Z :=
  List.map (fun k => a + Z.of_nat k) (seq 0 (Z.to_nat (b - a))).

End Py.

(** ** Module constants *)

Definition DEFAULT_TAG : string := "maid_offhours".

Definition TZ_ALIASES : list (string * string) :=
  [ ("pdt", "America/Los_Angeles");
    ("pt", "America/Los_Angeles");
    ("pst", "America/Los_Angeles");
    ("est", "America/New_York");
    ("edt", "America/New_York");
    ("et", "America/New_York");
    ("cst", "America/Chicago");
    ("cdt", "America/Chicago");
    ("ct", "America/Chicago");
    ("mt", "America/Denver");
    ("gmt", "Europe/London");
    ("gt", "Europe/London") ].

Definition DEFAULT_OFFHOUR : Z := 19.
Definition DEFAULT_ONHOUR : Z := 7.
Definition DEFAULT_TZ : string := "et".

Definition VALID_DAYS : list string := ["m"; "t"; "w"; "h"; "f"; "s"; "u"].
Definition VALID_HOURS : list Z :=
  [0; 1; 2; 3; 4; 5; 6; 7; 8; 9; 10; 11; 12; 13; 14; 15; 16; 17; 18;
   19; 20; 21; 22; 23].

(** ** Schedules *)

Record hour_rule : Type := HourRule { days : list string; hour : Z }.

(** The dict [parse] builds holds a list of rules under the keys ['on'] and
    ['off'] and a string under every other key, so it is kept as those two
    typed parts: [sched_on]/[sched_off] are the entries ['on']/['off'],
    [sched_str] the entries of all other keys (never ['on'] or ['off']). *)
Record schedule : Type := Schedule {
  sched_on : option (list hour_rule);
  sched_off : option (list hour_rule);
  sched_str : gmap string string
}.

Definition empty_schedule : schedule := Schedule None None ∅.

(** [len(schedule)] *)
Definition sched_len (s : schedule) : nat :=
  ((if sched_on s is Some _ then 1 else 0)
   + (if sched_off s is Some _ then 1 else 0)
   + size (sched_str s))%nat.

(** [schedule[key] = value] for the three kinds of key. *)
Definition set_on (v : list hour_rule) (s : schedule) : schedule :=
  Schedule (Some v) (sched_off s) (sched_str s).
Definition set_off (v : list hour_rule) (s : schedule) : schedule :=
  Schedule (sched_on s) (Some v) (sched_str s).
Definition set_str (k v : string) (s : schedule) : schedule :=
  Schedule (sched_on s) (sched_off s) (<[k := v]> (sched_str s)).

(** ** ScheduleParser *)

Module ScheduleParser.

Definition is_valid_hour_range (h : Z) : bool :=
  existsb (Z.eqb h) VALID_HOURS.

Definition is_valid_day (day : string) : bool := Py.mem day VALID_DAYS.

Definition expand_day_range (d : string) : result (list string) :=
  if (String.length d =? 1)%nat then
    if negb (is_valid_day d) then Raises ValueError else Returns [d]
  else
    let ds := Py.split "-" d in
    match ds with
    | [d0; d1] =>
        if negb (is_valid_day d0) || negb (is_valid_day d1)
        then Raises ValueError
        else
          (let? i := Py.index d0 VALID_DAYS in
           let? j := Py.index d1 VALID_DAYS in
           Returns (Py.slice i (j + 1) VALID_DAYS))%result
    | _ => Returns []
    end.

(** The body of the [try] block of [parse_custom_hours] for one group
    already split into its two fields. *)
Definition parse_group (d h : string) : result hour_rule :=
  (let? n := Py.int h in
   if negb (is_valid_hour_range n) then Raises ValueError
   else
     let? ds := expand_day_range d in
     Returns (HourRule ds n))%result.

Fixpoint parse_groups (hours : list string) (parsed : list hour_rule)
  : result (list hour_rule) :=
  match hours with
  | [] => Returns parsed
  | g :: rest =>
      match Py.split "," (Py.translate_del "()" g) with
      | [d; h] =>
          match parse_group d h with
          | Returns r => parse_groups rest (parsed ++ [r])
          | Raises ValueError => Returns []
          | Raises e => Raises e
          end
      | _ => Returns []
      end
  end.

Definition parse_custom_hours (hours : string) : result (list hour_rule) :=
  parse_groups (Py.split ",(" (Py.translate_del "[]" hours)) [].

Definition is_valid_hour (h : hour_rule) : bool :=
  if (length (days h) <=? 0)%nat then false else true.

Fixpoint is_valid_hours_loop (hours : list hour_rule) : bool :=
  match hours with
  | [] => true
  | h :: rest => if negb (is_valid_hour h) then false else is_valid_hours_loop rest
  end.

Definition is_valid_hours (hours : list hour_rule) : bool :=
  if (length hours <=? 0)%nat then false else is_valid_hours_loop hours.

Definition is_valid (s : schedule) : bool :=
  match sched_off s, sched_on s with
  | Some _, None => false
  | None, Some _ => false
  | Some off, Some on =>
      if negb (is_valid_hours off) then false
      else if negb (is_valid_hours on) then false
      else true
  | None, None => true
  end.

(** One turn of the loop over the pieces of the tag value. *)
Definition parse_piece (s : schedule) (piece : string) : result schedule :=
  match Py.split "=" piece with
  | [key; value] =>
      if String.eqb key "on" then
        (let? v := parse_custom_hours value in Returns (set_on v s))%result
      else if String.eqb key "off" then
        (let? v := parse_custom_hours value in Returns (set_off v s))%result
      else Returns (set_str key value s)
  | _ => Returns s
  end.

Fixpoint parse_pieces (pieces : list string) (s : schedule) : result schedule :=
  match pieces with
  | [] => Returns s
  | piece :: rest =>
      match parse_piece s piece with
      | Returns s' => parse_pieces rest s'
      | Raises e => Raises e
      end
  end.

(** [parse] after the cache lookup and before the cache store: [None] is
    Python's [None], the invalid schedule. *)
Definition parse_uncached (tag_value : string) : result (option schedule) :=
  (let? s := parse_pieces (Py.split ";" tag_value) empty_schedule in
   let s := match sched_str s !! "tz" with
            | None => set_str "tz" DEFAULT_TZ s
            | Some _ => s
            end in
   if negb (is_valid s) then Returns None else Returns (Some s))%result.

(** [parse]: the class attribute [cache] is one dict shared by every
    instance; it is threaded through as state. *)
Definition parse (tag_value : string) (cache : gmap string (option schedule))
  : result (option schedule) * gmap string (option schedule) :=
  match cache !! tag_value with
  | Some r => (Returns r, cache)
  | None =>
      match parse_uncached tag_value with
      | Returns r => (Returns r, <[tag_value := r]> cache)
      | Raises e => (Raises e, cache)
      end
  end.

End ScheduleParser.

(** ** Dates and times *)

(** A [datetime] carries its calendar date as the proleptic Gregorian ordinal
    ([toordinal()]) and its time of day.  All values compared below carry the
    same [tzinfo] object, for which Python compares the fields. *)
Record datetime : Type := DateTime {
  dt_date : Z;
  dt_hour : Z;
  dt_minute : Z;
  dt_second : Z;
  dt_microsecond : Z
}.

Module Datetime.

(** [weekday()]: Monday is 0, Sunday is 6. *)
Definition weekday (t : datetime) : Z := (dt_date t + 6) mod 7.

Definition in_range (lo hi : Z) (v : option Z) : bool :=
  match v with
  | Some x => (lo <=? x) && (x <=? hi)
  | None => true
  end.

(** [t.replace(hour=.., minute=.., second=.., microsecond=..)]; [None] is
    an argument that is not given, whose field is kept (it is in range, being
    a field of a [datetime]).  A given value out of range is a
    [ValueError]. *)
Definition replace (h m s us : option Z) (t : datetime) : result datetime :=
  if in_range 0 23 h && in_range 0 59 m && in_range 0 59 s
     && in_range 0 999999 us
  then Returns (DateTime (dt_date t) (default (dt_hour t) h)
                  (default (dt_minute t) m) (default (dt_second t) s)
                  (default (dt_microsecond t) us))
  else Raises ValueError.

Definition eqb (a b : datetime) : bool :=
  (dt_date a =? dt_date b) && (dt_hour a =? dt_hour b)
  && (dt_minute a =? dt_minute b) && (dt_second a =? dt_second b)
  && (dt_microsecond a =? dt_microsecond b).

End Datetime.

(** ** The environment of an evaluation *)

(** A timezone object, named by the zone it stands for. *)
Definition tzinfo : Type := string.

(** What the filter reads from outside: the timezone database
    ([zoneinfo.gettz], [None] for an unknown zone) and the system clock, whose
    [n]-th reading is given in any zone. *)
Record system : Type := System {
  gettz : string -> option tzinfo;
  clock : nat -> tzinfo -> datetime
}.

(** The mutable state: the parser cache and the number of clock readings
    taken so far. *)
Record world : Type := World {
  cache : gmap string (option schedule);
  reads : nat
}.

Definition M (A : Type) : Type := world -> result A * world.

Definition ret {A : Type} (a : A) : M A := fun w => (Returns a, w).
Definition raise {A : Type} (e : exn) : M A := fun w => (Raises e, w).
Definition lift {A : Type} (r : result A) : M A := fun w => (r, w).

Definition bind {A B : Type} (m : M A) (k : A -> M B) : M B :=
  fun w =>
    match m w with
    | (Returns a, w') => k a w'
    | (Raises e, w') => (Raises e, w')
    end.

(** [try: m  except Exception: h] *)
Definition try_except {A : Type} (m : M A) (h : M A) : M A :=
  fun w =>
    match m w with
    | (Returns a, w') => (Returns a, w')
    | (Raises _, w') => h w'
    end.

Declare Scope m_scope.
Delimit Scope m_scope with M.
Notation "'let!' x ':=' m 'in' k" := (bind m (fun x => k))
  (at level 10, x name, m at level 100, k at level 200) : m_scope.

(** [ScheduleParser().parse(tag_value)] *)
Definition parse (tag_value : string) : M (option schedule) :=
  fun w =>
    let '(r, c) := ScheduleParser.parse tag_value (cache w) in
    (r, World c (reads w)).

(** [datetime.datetime.now(tz)] *)
Definition datetime_now (sys : system) (tz : tzinfo) : M datetime :=
  fun w => (Returns (clock sys (reads w) tz), World (cache w) (S (reads w))).

(** ** Filter configuration and resources *)

(** The options of a policy ([self.data]); [None] is an absent key. *)
Record options : Type := Options {
  opt_tag : option string;
  opt_default_tz : option string;
  opt_default_tz_dash : option string;
  opt_skew : option Z;
  opt_weekends : option bool;
  opt_opt_out : option bool;
  opt_offhour : option Z;
  opt_onhour : option Z;
  opt_hour : option Z;
  opt_minute : option Z
}.

Definition no_options : options :=
  Options None None None None None None None None None None.

(** The three filter classes of the module. *)
Inductive variant : Type := Time | OffHour | OnHour.

Definition class_name (v : variant) : string :=
  match v with
  | Time => "Time"
  | OffHour => "OffHour"
  | OnHour => "OnHour"
  end.

Record filter : Type := Filter { cls : variant; data : options }.

(** The attributes [__init__] sets. *)
Definition skew (self : filter) : Z := default 0 (opt_skew (data self)).
Definition weekends (self : filter) : bool := default false (opt_weekends (data self)).
Definition opt_out (self : filter) : bool := default false (opt_opt_out (data self)).

Record tag : Type := Tag { Key : string; Value : string }.

(** A resource, as far as the filter looks at it: its ['Tags'] entry. *)
Record resource : Type := Resource { Tags : option (list tag) }.

(** ** The filter classes [Time], [OffHour], [OnHour] *)

(** The dict comprehension of [get_tag_parts]: later tags overwrite earlier
    ones with the same lowercased key. *)
Definition build_tag_map (tags : list tag) : gmap string string :=
  fold_left (fun m t => <[Py.lower (Key t) := Value t]> m) tags ∅.

(** [get_tag_parts]; [None] in the first component is the [False] the source
    returns when the tag is missing. *)
Definition get_tag_parts (self : filter) (i : resource)
  : option (list string) * gmap string string :=
  let tag_key := Py.lower (default DEFAULT_TAG (opt_tag (data self))) in
  let tag_map := build_tag_map (default [] (Tags i)) in
  match tag_map !! tag_key with
  | None => (None, tag_map)
  | Some v =>
      let value := Py.lower v in
      let value := Py.strip Py.dquote (Py.strip "'" value) in
      let parts := Py.filter_none (Py.split_ws value) in
      (Some parts, tag_map)
  end.

Fixpoint find_tz_spec (parts : list string) : option string :=
  match parts with
  | [] => None
  | p :: rest => if String.prefix "tz=" p then Some p else find_tz_spec rest
  end.

Fixpoint alias_lookup (k : string) (table : list (string * string)) : option string :=
  match table with
  | [] => None
  | (a, z) :: rest => if String.eqb a k then Some z else alias_lookup k rest
  end.

(** [a or b] on strings, [a] possibly [None]. *)
Definition str_or (a : option string) (b : string) : string :=
  match a with
  | Some EmptyString | None => b
  | Some s => s
  end.

Definition get_local_tz (sys : system) (self : filter) (parts : list string)
  : result (option tzinfo) :=
  (let? tz_spec :=
     match find_tz_spec parts with
     | None =>
         Returns (str_or (opt_default_tz (data self))
                    (default DEFAULT_TZ (opt_default_tz_dash (data self))))
     | Some p =>
         match Py.split "=" p with
         | [_; v] => Returns v
         | _ => Raises ValueError
         end
     end in
   let tz_spec := default tz_spec (alias_lookup tz_spec TZ_ALIASES) in
   Returns (gettz sys tz_spec))%result.

(** Truth value of [parts.get(k)] for a list-valued entry. *)
Definition truthy (v : option (list hour_rule)) : bool :=
  match v with
  | Some (_ :: _) => true
  | _ => false
  end.

Definition is_custom (parts : schedule) : bool :=
  if (sched_len parts =? 3)%nat && truthy (sched_on parts)
     && truthy (sched_off parts)
  then true else false.

(** The inner loop of [get_custom_time] over the days of one rule; [true]
    stands for the [return True]. *)
Fixpoint match_days (now : datetime) (h : Z) (ds : list string) : result bool :=
  match ds with
  | [] => Returns false
  | d :: rest =>
      (let? k := Py.index d VALID_DAYS in
       if (Datetime.weekday now =? Z.of_nat k) && (dt_hour now =? h)
       then Returns true
       else match_days now h rest)%result
  end.

Fixpoint match_rules (now : datetime) (time : list hour_rule) : result bool :=
  match time with
  | [] => Returns false
  | item :: rest =>
      (let? hit := match_days now (hour item) (days item) in
       if hit then Returns true else match_rules now rest)%result
  end.

Definition get_custom_time (self : filter) (now : datetime) (parts : schedule)
  : result bool :=
  let name := class_name (cls self) in
  let time :=
    if Py.mem name ["InstanceOnHour"; "OnHour"] then Some (sched_on parts)
    else if Py.mem name ["InstanceOffHour"; "OffHour"] then Some (sched_off parts)
    else None in
  match time with
  | None => Returns false
  | Some None => Raises TypeError
  | Some (Some rules) => match_rules now rules
  end.

(** [Time.get_sentinel_time] *)
Definition base_sentinel_time (sys : system) (self : filter) (tz : tzinfo)
  : M datetime :=
  (let! t := datetime_now sys tz in
   lift (Datetime.replace (Some (default 0 (opt_hour (data self))))
           (Some (default 0 (opt_minute (data self)))) (Some 0) (Some 0) t))%M.

(** [get_sentinel_time], with the overrides of [OffHour] and [OnHour]. *)
Definition get_sentinel_time (sys : system) (self : filter) (tz : tzinfo)
  : M datetime :=
  match cls self with
  | Time => base_sentinel_time sys self tz
  | OffHour =>
      (let! t := base_sentinel_time sys self tz in
       lift (Datetime.replace
               (Some (default DEFAULT_OFFHOUR (opt_offhour (data self))))
               None None None t))%M
  | OnHour =>
      (let! t := base_sentinel_time sys self tz in
       lift (Datetime.replace
               (Some (default DEFAULT_ONHOUR (opt_onhour (data self))))
               None None None t))%M
  end.

(** ['tz=%s' % parsed.get('tz')] *)
Definition format_tz (v : option string) : string :=
  "tz=" +:+ default "None" v.

(** The [try]/[except] at the head of [process_current_time]. *)
Definition parse_or_default (parts : list string) : M (option schedule) :=
  try_except
    (let! parsed :=
       match parts with
       | [] => raise IndexError
       | p :: _ => parse p
       end in
     match parsed with
     | None => raise ValueError
     | Some _ => ret parsed
     end)%M
    (parse "").

(** The [for] loop of [process_current_time] over [range(1, skew + 1)]. *)
Fixpoint skew_loop (h : Z) (steps : list Z) (sentinel now : datetime)
  : result bool :=
  match steps with
  | [] => Returns false
  | i :: rest =>
      (let? sentinel := Datetime.replace (Some (h + i)) None None None sentinel in
       if Datetime.eqb sentinel now then Returns true
       else skew_loop h rest sentinel now)%result
  end.

Definition process_current_time (sys : system) (self : filter)
    (parts : list string) : M bool :=
  (let! parsed := parse_or_default parts in
   match parsed with
   | None => raise AttributeError
   | Some parsed =>
       let tz_part := [format_tz (sched_str parsed !! "tz")] in
       let! tz := lift (get_local_tz sys self tz_part) in
       match tz with
       | None => ret false
       | Some tz =>
           let! t := datetime_now sys tz in
           let! now := lift (Datetime.replace None (Some 0) (Some 0) (Some 0) t) in
           if negb (weekends self)
              && ((Datetime.weekday now =? 5) || (Datetime.weekday now =? 6))
           then ret false
           else if is_custom parsed
           then lift (get_custom_time self now parsed)
           else
             let! sentinel := get_sentinel_time sys self tz in
             if Datetime.eqb sentinel now then ret true
             else if skew self =? 0 then ret false
             else
               lift (skew_loop (dt_hour sentinel) (Py.range 1 (skew self + 1))
                       sentinel now)
       end
   end)%M.

(** [__call__] *)
Definition call (sys : system) (self : filter) (i : resource) : M bool :=
  let '(parts, _) := get_tag_parts self i in
  let parts :=
    match parts with
    | None => if opt_out self then Some [] else None
    | Some p => Some p
    end in
  match parts with
  | None => ret false
  | Some parts =>
      if Py.mem "off" parts then ret false
      else process_current_time sys self parts
  end.

Definition empty_world : world := World ∅ 0.

(** Successive calls of [parse] on the shared cache. *)
Fixpoint run_parses (tag_values : list string)
    (c : gmap string (option schedule)) : gmap string (option schedule) :=
  match tag_values with
  | [] => c
  | s :: rest => run_parses rest (snd (ScheduleParser.parse s c))
  end.

(** Every cached entry is what parsing its key gives. *)
Definition cache_ok (c : gmap string (option schedule)) : Prop :=
  forall k v, c !! k = Some v -> ScheduleParser.parse_uncached k = Returns v.

(** ** Notions used in the statements *)

(** [s] holds no ['='] character. *)
Definition no_eq (s : string) : Prop := Py.mem_ascii "="%char s = false.

Definition rule_ok (r : hour_rule) : Prop :=
  Forall (fun d => In d VALID_DAYS) (days r).

Definition rules_ok (o : option (list hour_rule)) : Prop :=
  forall l, o = Some l -> Forall rule_ok l.

Definition sched_wf (s : schedule) : Prop :=
  (forall k v, sched_str s !! k = Some v -> no_eq v)
  /\ rules_ok (sched_on s) /\ rules_ok (sched_off s).

(** The schedule [parse("")] gives: the default timezone and nothing else. *)
Definition default_schedule : schedule := set_str "tz" DEFAULT_TZ empty_schedule.

(** The schedule [process_current_time] works with, as a function of the
    tokens alone: the parse of the first token, or the default schedule when
    there is no token or the token is invalid. *)
Definition effective_schedule (parts : list string) : schedule :=
  match parts with
  | [] => default_schedule
  | p :: _ =>
      match ScheduleParser.parse_uncached p with
      | Returns (Some s) => s
      | _ => default_schedule
      end
  end.

(** The zone identifier handed to [zoneinfo.gettz] for the code [t]. *)
Definition zone_name (t : string) : string :=
  default t (alias_lookup t TZ_ALIASES).

(** [t.replace(minute=0, second=0, microsecond=0)] *)
Definition truncate (t : datetime) : datetime :=
  DateTime (dt_date t) (dt_hour t) 0 0 0.

(** The part of [process_current_time] that follows the custom check. *)
Definition sentinel_path (sys : system) (self : filter) (tz : tzinfo)
    (now : datetime) : M bool :=
  (let! sentinel := get_sentinel_time sys self tz in
   if Datetime.eqb sentinel now then ret true
   else if skew self =? 0 then ret false
   else
     lift (skew_loop (dt_hour sentinel) (Py.range 1 (skew self + 1))
             sentinel now))%M.

(** The value of the configured tag on a resource, if it has one. *)
Definition tag_value (self : filter) (i : resource) : option string :=
  snd (get_tag_parts self i)
  !! Py.lower (default DEFAULT_TAG (opt_tag (data self))).

(** The sentinel time [get_sentinel_time] builds from a clock reading. *)
Definition sentinel_of (self : filter) (t : datetime) : result datetime :=
  (let? b := Datetime.replace (Some (default 0 (opt_hour (data self))))
               (Some (default 0 (opt_minute (data self)))) (Some 0) (Some 0) t in
   match cls self with
   | Time => Returns b
   | OffHour =>
       Datetime.replace
         (Some (default DEFAULT_OFFHOUR (opt_offhour (data self)))) None None None b
   | OnHour =>
       Datetime.replace
         (Some (default DEFAULT_ONHOUR (opt_onhour (data self)))) None None None b
   end)%result.

(** The rule "Monday to Friday at hour [h]". *)
Definition weekdays_at (h : Z) : list hour_rule :=
  [HourRule ["m"; "t"; "w"; "h"; "f"] h].

(** A resource carrying the default tag with the value [v]. *)
Definition tagged (v : string) : resource := Resource (Some [Tag DEFAULT_TAG v]).

(** A timezone database that knows every name and a clock that stands still:
    Monday 2016-01-04 (ordinal 735967), Saturday 2016-01-09 (735972). *)
Definition frozen (date h : Z) : system :=
  System (fun name => Some name) (fun _ _ => DateTime date h 30 12 5).
Definition monday_at (h : Z) : system := frozen 735967 h.
Definition saturday_at (h : Z) : system := frozen 735972 h.

(** A clock that shows Monday 19:30 in Los Angeles and, at the same instant,
    Monday 22:30 in every other zone. *)
Definition two_zones : system :=
  System (fun name => Some name)
    (fun _ tz =>
       if String.eqb tz "America/Los_Angeles"
       then DateTime 735967 19 30 12 5
       else DateTime 735967 22 30 12 5).

Definition with_skew (k : Z) : options :=
  Options None None None (Some k) None None None None None None.
Definition offhour_skew (h k : Z) : options :=
  Options None None None (Some k) None None (Some h) None None None.
Definition with_default_tz (z : string) : options :=
  Options None (Some z) None None None None None None None None.

(** The weekday number of a day code: its position in [VALID_DAYS]. *)
Definition day_number (d : string) : Z :=
  match Py.index d VALID_DAYS with
  | Returns k => Z.of_nat k
  | Raises _ => -1
  end.

(** A rule covers now: one of its days is today and its hour is the hour of
    now. *)
Definition rule_hits (now : datetime) (r : hour_rule) : bool :=
  existsb (fun d => (Datetime.weekday now =? day_number d)
                    && (dt_hour now =? hour r)) (days r).

(** The fields of one group and the groups of an [on=]/[off=] value, cut the
    way [parse_custom_hours] cuts them. *)
Definition group_fields (g : string) : list string :=
  Py.split "," (Py.translate_del "()" g).

Definition groups (v : string) : list (list string) :=
  List.map group_fields (Py.split ",(" (Py.translate_del "[]" v)).

(** The value of a [key=value] piece for [key], if the piece is one. *)
Definition piece_value (key piece : string) : option string :=
  match Py.split "=" piece with
  | [k; v] => if String.eqb k key then Some v else None
  | _ => None
  end.

(** Every value the raw string gives for [key], in order. *)
Definition values_of (key s : string) : list string :=
  omap (piece_value key) (Py.split ";" s).

(** The value that stays bound to [key]: the one of the last such piece. *)
Fixpoint last_value_from (key : string) (pieces : list string)
    (acc : option string) : option string :=
  match pieces with
  | [] => acc
  | piece :: rest =>
      last_value_from key rest
        (match piece_value key piece with
         | Some v => Some v
         | None => acc
         end)
  end.

Definition last_value (key s : string) : option string :=
  last_value_from key (Py.split ";" s) None.



(** The day ranges [a-b] with [a] strictly after [b] in [VALID_DAYS]. *)
Definition reversed_ranges : list string :=
  flat_map
    (fun a =>
       flat_map
         (fun b =>
            match Py.index a VALID_DAYS, Py.index b VALID_DAYS with
            | Returns i, Returns j =>
                if (j <? i)%nat then [a +:+ "-" +:+ b] else []
            | _, _ => []
            end)
         VALID_DAYS)
    VALID_DAYS.

Definition is_reversed_range (d : string) : bool := Py.mem d reversed_ranges.

(** A group whose days field is a reversed range. *)
Definition has_reversed_range (fields : list string) : bool :=
  match fields with
  | d :: _ => is_reversed_range d
  | [] => false
  end.

(** A group that yields no rule with days: [parse_custom_hours] gives up on
    it, or records a rule with an empty day list. *)
Definition group_rejected (fields : list string) : bool :=
  match fields with
  | [d; h] =>
      match ScheduleParser.parse_group d h with
      | Returns r => negb (ScheduleParser.is_valid_hour r)
      | Raises _ => true
      end
  | _ => true
  end.

(** The list [parse_custom_hours] returns. *)
Definition custom_hours (v : string) : list hour_rule :=
  match ScheduleParser.parse_custom_hours v with
  | Returns l => l
  | Raises _ => []
  end.


(** Some [on=] or [off=] value of the raw string has a group whose days are a
    reversed range. *)
Definition has_reversed_day_range (s : string) : bool :=
  existsb (fun v => existsb has_reversed_range (groups v))
    (values_of "on" s ++ values_of "off" s).

(** ** Notions used in the further properties *)

(** Whether [parse] returns a schedule. *)
Definition parses (s : string) : bool :=
  match ScheduleParser.parse_uncached s with
  | Returns (Some _) => true
  | _ => false
  end.

(** A rule list passes validation: it is not empty and none of its rules
    has an empty day list. *)
Definition rules_pass (l : list hour_rule) : bool :=
  match l with
  | [] => false
  | _ :: _ =>
      forallb (fun r => match days r with
                        | [] => false
                        | _ :: _ => true
                        end) l
  end.

(** The verdict of validation read off the values that stay bound to [on]
    and [off]: both absent, or both present with rule lists that pass. *)
Definition values_valid (on off : option string) : bool :=
  match on, off with
  | None, None => true
  | Some a, Some b => rules_pass (custom_hours a) && rules_pass (custom_hours b)
  | _, _ => false
  end.

(** The rule one group stands for, when it has two fields and its [try]
    block raises nothing. *)
Definition group_rule (fields : list string) : option hour_rule :=
  match fields with
  | [d; h] =>
      match ScheduleParser.parse_group d h with
      | Returns r => Some r
      | Raises _ => None
      end
  | _ => None
  end.

(** The rules of all groups, in order, when every group stands for one. *)
Fixpoint rules_of (gs : list (list string)) : option (list hour_rule) :=
  match gs with
  | [] => Some []
  | g :: rest =>
      match group_rule g, rules_of rest with
      | Some r, Some l => Some (r :: l)
      | _, _ => None
      end
  end.

(** The hour a variant puts its sentinel at. *)
Definition sentinel_hour (self : filter) : Z :=
  match cls self with
  | Time => default 0 (opt_hour (data self))
  | OffHour => default DEFAULT_OFFHOUR (opt_offhour (data self))
  | OnHour => default DEFAULT_ONHOUR (opt_onhour (data self))
  end.

(** Every character of [s] satisfies [P]. *)
Definition all_chars (P : ascii -> bool) (s : string) : bool :=
  forallb P (list_ascii_of_string s).

Definition is_space (c : ascii) : bool := Py.mem_ascii c Py.whitespace.

(** [c] is left alone by [str.lower()]. *)
Definition is_lowered (c : ascii) : bool := Ascii.eqb (Py.lower_ascii c) c.

(** The tokens [get_tag_parts] cuts a tag value into. *)
Definition tokens_of (v : string) : list string :=
  Py.filter_none
    (Py.split_ws (Py.strip Py.dquote (Py.strip "'" (Py.lower v)))).

(** The decision of the sentinel path for sentinel hour [h], skew [k] and
    the hour [now_hour] of now. *)
Definition window_decision (h k now_hour : Z) : result bool :=
  if h =? now_hour then Returns true
  else if k <=? 0 then Returns false
  else if (h + 1 <=? now_hour) && (now_hour <=? Z.min (h + k) 23)
  then Returns true
  else if h + k <=? 23 then Returns false
  else Raises ValueError.

(** A system whose timezone database knows no zone. *)
Definition no_zones : system :=
  System (fun _ => None) (fun _ _ => DateTime 735967 19 30 12 5).

(** The range checks [get_sentinel_time] makes on the options. *)
Definition sentinel_options_ok (self : filter) : bool :=
  Datetime.in_range 0 23 (Some (default 0 (opt_hour (data self))))
  && Datetime.in_range 0 59 (Some (default 0 (opt_minute (data self))))
  && Datetime.in_range 0 23 (Some (sentinel_hour self)).


(** The tokens an evaluation works with: those of the tag, none when the
    resource has no such tag. *)
Definition tag_tokens (self : filter) (i : resource) : list string :=
  default [] (fst (get_tag_parts self i)).

(** The zone an evaluation on the tokens [parts] resolves: the one the
    timezone database gives for the timezone of the effective schedule. *)
Definition resolved_tz (sys : system) (parts : list string) : option tzinfo :=
  match sched_str (effective_schedule parts) !! "tz" with
  | Some t => gettz sys (zone_name t)
  | None => None
  end.

(** A clock that shows Sunday 2016-01-10 22:30 in Los Angeles and, at the
    same instant, Monday 2016-01-11 01:30 in every other zone. *)
Definition sunday_evening_pacific : system :=
  System (fun name => Some name)
    (fun _ tz =>
       if String.eqb tz "America/Los_Angeles"
       then DateTime 735973 22 30 12 5
       else DateTime 735974 1 30 12 5).

(** * Properties *)

(** ** The parser raises nothing *)

Section ParserTotal.
Import ScheduleParser.

Lemma index_raises x l e : Py.index x l = Raises e -> e = ValueError.
Proof.
  induction l as [|y l IH]; simpl.
  - congruence.
  - destruct (String.eqb y x); [discriminate|].
    destruct (Py.index x l); [discriminate|].
    intros [= <-]. now apply IH.
Qed.

Lemma int_raises s e : Py.int s = Raises e -> e = ValueError.
Proof.
  unfold Py.int.
  destruct (match Py.strip Py.whitespace s with
            | String "-"%char r => (-1, r)
            | String "+"%char r => (1, r)
            | _ => (1, Py.strip Py.whitespace s)
            end) as [sign body].
  destruct body; [congruence|].
  destruct (Py.digits_val 0 _); congruence.
Qed.

Lemma expand_day_range_raises d e :
  expand_day_range d = Raises e -> e = ValueError.
Proof.
  unfold expand_day_range.
  destruct (String.length d =? 1)%nat.
  - destruct (negb (is_valid_day d)); congruence.
  - destruct (Py.split "-" d) as [|d0 [|d1 [|? ?]]]; try discriminate.
    destruct (negb (is_valid_day d0) || negb (is_valid_day d1)); [congruence|].
    destruct (Py.index d0 VALID_DAYS) eqn:E0; cbn [rbind].
    + destruct (Py.index d1 VALID_DAYS) eqn:E1; cbn [rbind]; [discriminate|].
      intros [= <-]. eauto using index_raises.
    + intros [= <-]. eauto using index_raises.
Qed.

Lemma parse_group_raises d h e : parse_group d h = Raises e -> e = ValueError.
Proof.
  unfold parse_group.
  destruct (Py.int h) eqn:Ei; cbn [rbind].
  - destruct (negb (is_valid_hour_range a)); [congruence|].
    destruct (expand_day_range d) eqn:Ed; cbn [rbind]; [discriminate|].
    intros [= <-]. eauto using expand_day_range_raises.
  - intros [= <-]. eauto using int_raises.
Qed.

Lemma parse_groups_returns hours parsed :
  exists l, parse_groups hours parsed = Returns l.
Proof.
  revert parsed. induction hours as [|g rest IH]; intros parsed; simpl.
  - eauto.
  - destruct (Py.split "," _) as [|d [|h [|? ?]]]; eauto.
    destruct (parse_group d h) as [r|e] eqn:E; [apply IH|].
    apply parse_group_raises in E. subst e. eauto.
Qed.

Lemma parse_custom_hours_returns v : exists l, parse_custom_hours v = Returns l.
Proof. apply parse_groups_returns. Qed.

Lemma parse_piece_returns s piece : exists s', parse_piece s piece = Returns s'.
Proof.
  unfold parse_piece.
  destruct (Py.split "=" piece) as [|k [|v [|? ?]]]; eauto.
  destruct (parse_custom_hours_returns v) as [l Hl].
  destruct (String.eqb k "on"); [rewrite Hl; simpl; eauto|].
  destruct (String.eqb k "off"); [rewrite Hl; simpl; eauto|eauto].
Qed.

Lemma parse_pieces_returns pieces s : exists s', parse_pieces pieces s = Returns s'.
Proof.
  revert s. induction pieces as [|p rest IH]; intros s; simpl; eauto.
  destruct (parse_piece_returns s p) as [s' ->]. apply IH.
Qed.

Lemma parse_uncached_returns s : exists r, parse_uncached s = Returns r.
Proof.
  unfold parse_uncached.
  destruct (parse_pieces_returns (Py.split ";" s) empty_schedule) as [s' ->].
  simpl. destruct (negb (is_valid _)); eauto.
Qed.

End ParserTotal.

(** ** The cache *)

Section Cache.
Import ScheduleParser.

Lemma cache_ok_empty : cache_ok ∅.
Proof. intros k v H. rewrite lookup_empty in H. discriminate. Qed.

Lemma parse_cache_ok s c :
  cache_ok c ->
  fst (parse s c) = parse_uncached s /\ cache_ok (snd (parse s c)).
Proof.
  intros Hc. unfold parse.
  destruct (c !! s) as [r|] eqn:E; simpl.
  - split; [symmetry; now apply Hc | assumption].
  - destruct (parse_uncached s) as [r|e] eqn:Ep; simpl; [|now split].
    split; [reflexivity|].
    intros k v. rewrite lookup_insert.
    destruct (decide (s = k)) as [<-|Hne]; [congruence | apply Hc].
Qed.

Lemma run_parses_ok ss c : cache_ok c -> cache_ok (run_parses ss c).
Proof.
  revert c. induction ss as [|s ss IH]; intros c Hc; simpl; [assumption|].
  apply IH. now apply parse_cache_ok.
Qed.

Lemma parse_twice s c : fst (parse s (snd (parse s c))) = fst (parse s c).
Proof.
  unfold parse.
  destruct (c !! s) as [r|] eqn:E; simpl.
  - now rewrite E.
  - destruct (parse_uncached_returns s) as [r ->]. simpl.
    now rewrite lookup_insert_eq.
Qed.

End Cache.

(** C9: for every raw string, a call of [parse] and a second call on the
    cache the first one left return equal results, whatever the cache held
    before; on a cache filled by earlier calls of [parse] alone the result is
    the one computed from the raw string, which always exists. *)
Theorem C9_parse_deterministic :
  forall (s : string) (c : gmap string (option schedule)) (earlier : list string),
    fst (ScheduleParser.parse s (snd (ScheduleParser.parse s c)))
    = fst (ScheduleParser.parse s c)
    /\ fst (ScheduleParser.parse s (run_parses earlier ∅))
       = ScheduleParser.parse_uncached s
    /\ exists r, ScheduleParser.parse_uncached s = Returns r.
Proof.
  intros s c earlier. split; [apply parse_twice|]. split.
  - apply parse_cache_ok, run_parses_ok, cache_ok_empty.
  - apply parse_uncached_returns.
Qed.

(** ** Splitting on ['='] *)

Section SplitEq.

Local Arguments Ascii.eqb : simpl never.
Local Arguments ascii_dec : simpl never.

Lemma mem_ascii_app c s1 s2 :
  Py.mem_ascii c (s1 +:+ s2) = Py.mem_ascii c s1 || Py.mem_ascii c s2.
Proof.
  unfold Py.mem_ascii. induction s1 as [|a s1 IH]; simpl; [reflexivity|].
  rewrite <- orb_assoc. f_equal. exact IH.
Qed.

Lemma split_eq_step c s cur :
  Py.split_from "=" 0 cur (String c s)
  = if Ascii.eqb c "="%char then cur :: Py.split_from "=" 0 EmptyString s
    else Py.split_from "=" 0 (Py.snoc cur c) s.
Proof.
  cbn -[ascii_dec Ascii.eqb].
  destruct (ascii_dec "=" c) as [<-|Hne]; [now destruct s|].
  destruct (Ascii.eqb_spec c "="%char); [congruence | reflexivity].
Qed.

Lemma snoc_app cur c s : Py.snoc cur c +:+ s = cur +:+ String c s.
Proof.
  unfold Py.snoc. induction cur as [|a cur IH]; [reflexivity|].
  change (String a ((cur +:+ String c "") +:+ s) = String a (cur +:+ String c s)).
  f_equal. exact IH.
Qed.

Lemma no_eq_cons c s : no_eq (String c s) <-> c <> "="%char /\ no_eq s.
Proof.
  unfold no_eq, Py.mem_ascii. simpl.
  destruct (Ascii.eqb_spec "="%char c) as [<-|Hne]; simpl.
  - split; [discriminate | intros [H _]; congruence].
  - split; [intros H; split; [congruence | exact H] | intros [_ H]; exact H].
Qed.

Lemma split_from_no_eq s cur :
  no_eq s -> Py.split_from "=" 0 cur s = [cur +:+ s].
Proof.
  revert cur. induction s as [|c s IH]; intros cur Hs.
  - simpl. f_equal. induction cur as [|a cur IHc]; [reflexivity|].
    change (String a cur = String a (cur +:+ "")). congruence.
  - apply no_eq_cons in Hs as [Hc Hs]. rewrite split_eq_step.
    destruct (Ascii.eqb_spec c "="%char); [contradiction|].
    rewrite IH by assumption. now rewrite snoc_app.
Qed.

Lemma split_from_pieces s cur :
  no_eq cur -> Forall no_eq (Py.split_from "=" 0 cur s).
Proof.
  revert cur. induction s as [|c s IH]; intros cur Hcur.
  - simpl. now constructor.
  - rewrite split_eq_step. destruct (Ascii.eqb_spec c "="%char) as [->|Hne].
    + constructor; [assumption|]. now apply IH.
    + apply IH. unfold no_eq, Py.snoc in *. rewrite mem_ascii_app, Hcur.
      simpl. unfold Py.mem_ascii. simpl.
      destruct (Ascii.eqb_spec "="%char c); [congruence | reflexivity].
Qed.

Lemma split_eq_pieces s : Forall no_eq (Py.split "=" s).
Proof. apply split_from_pieces. reflexivity. Qed.

Lemma split_tz_part v : no_eq v -> Py.split "=" ("tz=" +:+ v) = ["tz"; v].
Proof.
  intros Hv. unfold Py.split.
  change ("tz=" +:+ v) with (String "t" (String "z" (String "=" v))).
  rewrite !split_eq_step. cbn.
  now rewrite split_from_no_eq.
Qed.

End SplitEq.

(** ** What every parsed schedule satisfies *)

Section ParserInvariant.
Import ScheduleParser.

Lemma is_valid_day_In d : is_valid_day d = true -> In d VALID_DAYS.
Proof.
  unfold is_valid_day, Py.mem. intros H.
  apply existsb_exists in H as (x & Hx & Heq).
  apply String.eqb_eq in Heq. now subst.
Qed.

Lemma expand_day_range_valid d ds :
  expand_day_range d = Returns ds -> Forall (fun x => In x VALID_DAYS) ds.
Proof.
  unfold expand_day_range.
  destruct (String.length d =? 1)%nat.
  - destruct (is_valid_day d) eqn:Ev; simpl; [|discriminate].
    intros [= <-]. constructor; [now apply is_valid_day_In | constructor].
  - destruct (Py.split "-" d) as [|d0 [|d1 [|? ?]]];
      try (intros [= <-]; constructor).
    destruct (negb (is_valid_day d0) || negb (is_valid_day d1)); [discriminate|].
    destruct (Py.index d0 VALID_DAYS) as [i|]; cbn [rbind]; [|discriminate].
    destruct (Py.index d1 VALID_DAYS) as [j|]; cbn [rbind]; [|discriminate].
    intros [= <-]. unfold Py.slice.
    apply Forall_drop, Forall_take, Forall_forall.
    intros x Hx. now apply list_elem_of_In.
Qed.

Lemma parse_group_valid d h r : parse_group d h = Returns r -> rule_ok r.
Proof.
  unfold parse_group.
  destruct (Py.int h) as [n|]; cbn [rbind]; [|discriminate].
  destruct (negb (is_valid_hour_range n)); [discriminate|].
  destruct (expand_day_range d) as [ds|] eqn:Ed; cbn [rbind]; [|discriminate].
  intros [= <-]. unfold rule_ok. simpl. eauto using expand_day_range_valid.
Qed.

Lemma parse_groups_valid hours parsed l :
  Forall rule_ok parsed -> parse_groups hours parsed = Returns l ->
  Forall rule_ok l.
Proof.
  revert parsed. induction hours as [|g rest IH]; intros parsed Hp; simpl.
  - now intros [= <-].
  - destruct (Py.split "," _) as [|d [|h [|? ?]]];
      try (intros [= <-]; constructor).
    destruct (parse_group d h) as [r|e] eqn:E.
    + apply IH. apply Forall_app. split; [assumption|].
      constructor; [eauto using parse_group_valid | constructor].
    + destruct e; try discriminate. intros [= <-]. constructor.
Qed.

Lemma parse_custom_hours_valid v l :
  parse_custom_hours v = Returns l -> Forall rule_ok l.
Proof. apply parse_groups_valid. constructor. Qed.

Lemma parse_piece_wf s piece s' :
  sched_wf s -> parse_piece s piece = Returns s' -> sched_wf s'.
Proof.
  intros (Hstr & Hon & Hoff). unfold parse_piece.
  pose proof (split_eq_pieces piece) as Hp.
  destruct (Py.split "=" piece) as [|k [|v [|? ?]]];
    try (intros [= <-]; now repeat split).
  destruct (String.eqb k "on").
  { destruct (parse_custom_hours v) as [l|] eqn:E; cbn [rbind]; [|discriminate].
    intros [= <-]. repeat split; try assumption.
    intros l' [= <-]. eauto using parse_custom_hours_valid. }
  destruct (String.eqb k "off").
  { destruct (parse_custom_hours v) as [l|] eqn:E; cbn [rbind]; [|discriminate].
    intros [= <-]. repeat split; try assumption.
    intros l' [= <-]. eauto using parse_custom_hours_valid. }
  intros [= <-]. repeat split; try assumption.
  intros k' v'. simpl. rewrite lookup_insert.
  destruct (decide (k = k')); [|apply Hstr].
  intros [= <-]. inversion Hp as [|? ? _ Hp']. now inversion Hp'.
Qed.

Lemma parse_pieces_wf pieces s s' :
  sched_wf s -> parse_pieces pieces s = Returns s' -> sched_wf s'.
Proof.
  revert s. induction pieces as [|p rest IH]; intros s Hs; simpl.
  - now intros [= <-].
  - destruct (parse_piece s p) as [s1|] eqn:E; [|discriminate].
    apply IH. eauto using parse_piece_wf.
Qed.

Lemma empty_schedule_wf : sched_wf empty_schedule.
Proof.
  repeat split; try discriminate;
    intros k v; simpl; rewrite lookup_empty; discriminate.
Qed.

Lemma parse_uncached_wf s p :
  parse_uncached s = Returns (Some p) ->
  sched_wf p /\ is_valid p = true
  /\ exists t, sched_str p !! "tz" = Some t /\ no_eq t.
Proof.
  unfold parse_uncached.
  destruct (parse_pieces (Py.split ";" s) empty_schedule) as [s0|] eqn:E;
    cbn [rbind]; [|discriminate].
  pose proof (parse_pieces_wf _ _ _ empty_schedule_wf E) as (Hstr & Hon & Hoff).
  destruct (sched_str s0 !! "tz") as [t|] eqn:Et.
  - destruct (is_valid s0) eqn:Ev; simpl; [|discriminate].
    intros [= <-]. repeat split; eauto.
  - destruct (is_valid (set_str "tz" DEFAULT_TZ s0)) eqn:Ev; simpl; [|discriminate].
    intros [= <-]. repeat split; try assumption.
    + intros k v. simpl. rewrite lookup_insert.
      destruct (decide ("tz" = k)); [|apply Hstr]. now intros [= <-].
    + exists DEFAULT_TZ. simpl. rewrite lookup_insert_eq. now split.
Qed.

End ParserInvariant.

(** ** The head of [process_current_time] *)

Section EvaluatorHead.

Lemma parse_empty :
  ScheduleParser.parse_uncached "" = Returns (Some default_schedule).
Proof. reflexivity. Qed.

Lemma parse_world s w :
  cache_ok (cache w) ->
  exists c, parse s w = (ScheduleParser.parse_uncached s, World c (reads w))
            /\ cache_ok c.
Proof.
  intros Hc. unfold parse.
  destruct (parse_cache_ok s (cache w) Hc) as [H1 H2].
  destruct (ScheduleParser.parse s (cache w)) as [r c]. simpl in *.
  subst r. eauto.
Qed.

Lemma parse_or_default_ok parts w :
  cache_ok (cache w) ->
  exists c,
    parse_or_default parts w
    = (Returns (Some (effective_schedule parts)), World c (reads w))
    /\ cache_ok c.
Proof.
  intros Hc. unfold parse_or_default, try_except, bind.
  destruct parts as [|p rest].
  - simpl. destruct (parse_world "" w Hc) as (c & -> & Hc').
    rewrite parse_empty. eauto.
  - destruct (parse_world p w Hc) as (c & -> & Hc').
    simpl effective_schedule.
    destruct (parse_uncached_returns p) as [[s|] ->].
    + simpl. eauto.
    + simpl. destruct (parse_world "" (World c (reads w)) Hc') as (c' & -> & Hc'').
      rewrite parse_empty. simpl. eauto.
Qed.

Lemma effective_schedule_parsed parts :
  exists s, ScheduleParser.parse_uncached s
            = Returns (Some (effective_schedule parts)).
Proof.
  destruct parts as [|p rest]; simpl.
  - exists "". apply parse_empty.
  - destruct (ScheduleParser.parse_uncached p) as [[s|]|] eqn:E.
    + now exists p.
    + exists "". apply parse_empty.
    + exists "". apply parse_empty.
Qed.

Lemma effective_schedule_tz parts :
  exists t, sched_str (effective_schedule parts) !! "tz" = Some t /\ no_eq t.
Proof.
  destruct (effective_schedule_parsed parts) as [s Hs].
  now apply parse_uncached_wf in Hs as (_ & _ & Ht).
Qed.

Lemma get_local_tz_of_schedule sys self t :
  no_eq t ->
  get_local_tz sys self [format_tz (Some t)] = Returns (gettz sys (zone_name t)).
Proof.
  intros Ht. change (format_tz (Some t)) with ("tz=" +:+ t).
  unfold get_local_tz.
  assert (Hf : find_tz_spec ["tz=" +:+ t] = Some ("tz=" +:+ t))
    by (destruct t; reflexivity).
  rewrite Hf, split_tz_part by assumption. reflexivity.
Qed.

Lemma truncate_replace t :
  Datetime.replace None (Some 0) (Some 0) (Some 0) t = Returns (truncate t).
Proof. reflexivity. Qed.

(** With a sound cache, [process_current_time] is the decision below on
    the effective schedule and the first clock reading. *)
Lemma process_current_time_eq sys self parts w t :
  cache_ok (cache w) ->
  sched_str (effective_schedule parts) !! "tz" = Some t ->
  exists c, cache_ok c /\
    process_current_time sys self parts w =
    match gettz sys (zone_name t) with
    | None => (Returns false, World c (reads w))
    | Some tz =>
        let now := truncate (clock sys (reads w) tz) in
        let w' := World c (S (reads w)) in
        if negb (weekends self)
           && ((Datetime.weekday now =? 5) || (Datetime.weekday now =? 6))
        then (Returns false, w')
        else if is_custom (effective_schedule parts)
        then (get_custom_time self now (effective_schedule parts), w')
        else sentinel_path sys self tz now w'
    end.
Proof.
  intros Hc Ht.
  destruct (parse_or_default_ok parts w Hc) as (c & Hp & Hc').
  exists c. split; [assumption|].
  destruct (effective_schedule_tz parts) as (t' & Ht' & Hne).
  rewrite Ht in Ht'. injection Ht' as <-.
  unfold process_current_time, bind at 1. rewrite Hp. cbv beta iota.
  rewrite Ht. unfold bind at 1, lift at 1.
  rewrite get_local_tz_of_schedule by assumption.
  destruct (gettz sys (zone_name t)) as [tz|]; [|reflexivity].
  unfold bind at 1, datetime_now at 1. cbn [cache reads].
  unfold bind at 1, lift at 1. rewrite truncate_replace. cbv zeta.
  destruct (negb (weekends self) && _); [reflexivity|].
  destruct (is_custom (effective_schedule parts)); reflexivity.
Qed.

End EvaluatorHead.

(** ** Tags *)

Section Tags.


Lemma call_missing_tag sys self i :
  fst (get_tag_parts self i) = None ->
  call sys self i
  = if opt_out self then process_current_time sys self [] else ret false.
Proof.
  unfold call. destruct (get_tag_parts self i) as [p m]. simpl.
  intros ->. destruct (opt_out self); reflexivity.
Qed.

Lemma call_present_tag sys self i parts :
  fst (get_tag_parts self i) = Some parts ->
  call sys self i
  = if Py.mem "off" parts then ret false
    else process_current_time sys self parts.
Proof.
  unfold call. destruct (get_tag_parts self i) as [p m]. simpl.
  now intros ->.
Qed.

End Tags.

(** C7: a resource whose tag value yields the token ['off'] among its tokens
    is never matched, whatever the variant, the options, the other tokens
    and the state; the state is left as it was. *)
Theorem C7_off_token_disables :
  forall (sys : system) (self : filter) (i : resource) (w : world)
         (parts : list string),
    fst (get_tag_parts self i) = Some parts ->
    In "off" parts ->
    call sys self i w = (Returns false, w).
Proof.
  intros sys self i w parts Hp Hin.
  rewrite (call_present_tag _ _ _ _ Hp).
  assert (Hm : Py.mem "off" parts = true).
  { unfold Py.mem. apply existsb_exists. exists "off".
    split; [assumption | reflexivity]. }
  now rewrite Hm.
Qed.


(** ** Weekends *)

(** C6: when weekends are skipped (the [weekends] option absent or false)
    and the current time in the zone resolved for the resource (the timezone
    of its schedule, looked up in the timezone database) falls on a Saturday
    or a Sunday, the filter returns false, for every resource, every
    variant, every hour and every schedule, custom ones included. *)
Theorem C6_weekend_skip :
  forall (sys : system) (self : filter) (i : resource) (w : world)
         (tz : tzinfo),
    cache_ok (cache w) ->
    weekends self = false ->
    resolved_tz sys (tag_tokens self i) = Some tz ->
    Datetime.weekday (clock sys (reads w) tz) = 5
    \/ Datetime.weekday (clock sys (reads w) tz) = 6 ->
    fst (call sys self i w) = Returns false.
Proof.
  intros sys self i w tz Hc Hwk Hres Hday.
  assert (Hpct : forall parts,
             resolved_tz sys parts = Some tz ->
             fst (process_current_time sys self parts w) = Returns false).
  { intros parts Hr. unfold resolved_tz in Hr.
    destruct (sched_str (effective_schedule parts) !! "tz") as [t|] eqn:Ht;
      [|discriminate].
    destruct (process_current_time_eq sys self parts w t Hc Ht) as (c & _ & ->).
    rewrite Hr. cbv zeta. rewrite Hwk.
    change (Datetime.weekday (truncate (clock sys (reads w) tz)))
      with (Datetime.weekday (clock sys (reads w) tz)).
    destruct Hday as [-> | ->]; reflexivity. }
  unfold tag_tokens in Hres.
  destruct (fst (get_tag_parts self i)) as [parts|] eqn:Ep.
  - rewrite (call_present_tag _ _ _ _ Ep).
    destruct (Py.mem "off" parts); [reflexivity | now apply Hpct].
  - rewrite (call_missing_tag _ _ _ Ep).
    destruct (opt_out self); [now apply Hpct | reflexivity].
Qed.

(** ** The sentinel path *)

Section Sentinel.

Lemma get_sentinel_time_eq sys self tz w :
  get_sentinel_time sys self tz w
  = (sentinel_of self (clock sys (reads w) tz), World (cache w) (S (reads w))).
Proof.
  unfold get_sentinel_time, sentinel_of, base_sentinel_time, bind, lift,
    datetime_now.
  destruct (cls self); cbn [cache reads];
    destruct (Datetime.replace _ _ (Some 0) (Some 0) (clock sys (reads w) tz));
    reflexivity.
Qed.

Lemma replace_fields h m s us t t' :
  Datetime.replace h m s us t = Returns t' ->
  t' = DateTime (dt_date t) (default (dt_hour t) h) (default (dt_minute t) m)
         (default (dt_second t) s) (default (dt_microsecond t) us).
Proof.
  unfold Datetime.replace.
  destruct (_ && _); [|discriminate]. now intros [= <-].
Qed.

Lemma sentinel_of_fields self t st :
  sentinel_of self t = Returns st ->
  dt_date st = dt_date t
  /\ dt_minute st = default 0 (opt_minute (data self))
  /\ dt_second st = 0 /\ dt_microsecond st = 0.
Proof.
  unfold sentinel_of.
  destruct (Datetime.replace _ _ _ _ t) as [b|] eqn:Eb; cbn [rbind];
    [|discriminate].
  apply replace_fields in Eb.
  destruct (cls self).
  - intros [= <-]. subst b. now repeat split.
  - intros H. apply replace_fields in H. subst st b. now repeat split.
  - intros H. apply replace_fields in H. subst st b. now repeat split.
Qed.

Lemma replace_hour_ok h t :
  0 <= h <= 23 ->
  Datetime.replace (Some h) None None None t
  = Returns (DateTime (dt_date t) h (dt_minute t) (dt_second t)
               (dt_microsecond t)).
Proof.
  intros Hh. unfold Datetime.replace, Datetime.in_range.
  replace ((0 <=? h) && (h <=? 23)) with true; [reflexivity|].
  symmetry. apply andb_true_iff. split; apply Z.leb_le; lia.
Qed.

Lemma eqb_at_hour d h now :
  d = dt_date now ->
  Datetime.eqb (DateTime d h 0 0 0) (truncate now) = (h =? dt_hour now).
Proof.
  intros ->. unfold Datetime.eqb, truncate. simpl.
  rewrite Z.eqb_refl. simpl. now rewrite !andb_true_r.
Qed.

End Sentinel.

(** C5: on the default sentinel path (no custom schedule, timezone resolved,
    no skipped weekend, [minute] option at 0, both clock readings on the same
    calendar day) with a sentinel hour of 19: with skew 2 the filter matches
    exactly when the hour of now is 19, 20 or 21 (so not at 18 or 22), and
    with skew 0 exactly when it is 19. *)
Theorem C5_skew_window :
  forall (sys : system) (self : filter) (parts : list string) (w : world)
         (t : string) (tz : tzinfo) (st : datetime),
    cache_ok (cache w) ->
    sched_str (effective_schedule parts) !! "tz" = Some t ->
    gettz sys (zone_name t) = Some tz ->
    is_custom (effective_schedule parts) = false ->
    (weekends self = true
     \/ (Datetime.weekday (clock sys (reads w) tz) <> 5
         /\ Datetime.weekday (clock sys (reads w) tz) <> 6)) ->
    default 0 (opt_minute (data self)) = 0 ->
    sentinel_of self (clock sys (S (reads w)) tz) = Returns st ->
    dt_hour st = 19 ->
    dt_date (clock sys (S (reads w)) tz) = dt_date (clock sys (reads w) tz) ->
    (skew self = 2 \/ skew self = 0) ->
    fst (process_current_time sys self parts w)
    = Returns
        (let h := dt_hour (clock sys (reads w) tz) in
         if skew self =? 2 then (h =? 19) || (h =? 20) || (h =? 21)
         else h =? 19).
Proof.
  intros sys self parts w t tz st Hc Ht Htz Hcustom Hwk Hmin Hst Hh Hdate Hskew.
  destruct (process_current_time_eq sys self parts w t Hc Ht) as (c & _ & ->).
  rewrite Htz. cbv zeta.
  change (Datetime.weekday (truncate (clock sys (reads w) tz)))
    with (Datetime.weekday (clock sys (reads w) tz)).
  assert (Hno : negb (weekends self)
                && ((Datetime.weekday (clock sys (reads w) tz) =? 5)
                    || (Datetime.weekday (clock sys (reads w) tz) =? 6)) = false).
  { destruct Hwk as [-> | [H5 H6]]; [reflexivity|].
    apply Z.eqb_neq in H5, H6. rewrite H5, H6. apply andb_false_r. }
  rewrite Hno, Hcustom.
  unfold sentinel_path, bind. rewrite get_sentinel_time_eq. cbn [reads cache].
  rewrite Hst.
  apply sentinel_of_fields in Hst as (Hd & Hm & Hs & Hu).
  rewrite Hmin in Hm. rewrite Hdate in Hd.
  destruct st as [d h m s u]. simpl in Hh, Hd, Hm, Hs, Hu. subst d h m s u.
  set (now := clock sys (reads w) tz).
  rewrite eqb_at_hour by reflexivity.
  rewrite (Z.eqb_sym (dt_hour now) 19).
  destruct (19 =? dt_hour now) eqn:E19.
  { destruct (skew self =? 2); reflexivity. }
  destruct Hskew as [-> | ->]; [|reflexivity].
  cbn [fst Z.eqb Pos.eqb dt_hour]. unfold lift.
  change (Py.range 1 (2 + 1)) with [1; 2].
  cbn [skew_loop].
  change (19 + 1) with 20. change (19 + 2) with 21.
  rewrite !replace_hour_ok by lia. cbn [rbind].
  rewrite eqb_at_hour by reflexivity.
  rewrite (Z.eqb_sym (dt_hour now) 20), (Z.eqb_sym (dt_hour now) 21).
  destruct (20 =? dt_hour now) eqn:E20; [reflexivity|].
  cbn [dt_date dt_minute dt_second dt_microsecond].
  rewrite replace_hour_ok by lia. cbn [rbind].
  rewrite eqb_at_hour by reflexivity.
  destruct (21 =? dt_hour now); reflexivity.
Qed.

(** ** Concrete evaluations *)

(** C1: an exception escapes the filter.  Off hour 23 with skew 1, evaluated
    on a Monday at 22:30 (no match at the sentinel hour): the skew loop asks
    for hour 24 and the [ValueError] of [replace] reaches the caller.  The
    same happens with off hour 24, which the schema of [OffHour] admits. *)
Theorem C1_exception_escapes :
  fst (call (monday_at 22) (Filter OffHour (offhour_skew 23 1)) (tagged "")
         empty_world) = Raises ValueError
  /\ fst (call (monday_at 22) (Filter OffHour (offhour_skew 24 0)) (tagged "")
            empty_world) = Raises ValueError.
Proof. split; vm_compute; reflexivity. Qed.

(** C2: the policy's [default_tz] is never used.  With [default_tz] set to
    ['pt'] and a tag without [tz=], the schedule already carries the global
    default ['et'], [get_local_tz] is handed ['tz=et'] and resolves
    America/New_York; at an instant that is 19:30 in Los Angeles and 22:30 in
    New York the off-hour filter (off hour 19) does not match, while it does
    with an explicit [tz=pt]. *)
Theorem C2_policy_default_tz_ignored :
  let self := Filter OffHour (with_default_tz "pt") in
  sched_str (effective_schedule []) !! "tz" = Some "et"
  /\ get_local_tz two_zones self [format_tz (Some "et")]
     = Returns (Some "America/New_York")
  /\ get_local_tz two_zones self [] = Returns (Some "America/Los_Angeles")
  /\ fst (call two_zones self (tagged "") empty_world) = Returns false
  /\ fst (call two_zones self (tagged "tz=pt") empty_world) = Returns true.
Proof. repeat split; vm_compute; reflexivity. Qed.

Lemma C5_skew_window_witness :
  fst (process_current_time (monday_at 20) (Filter OffHour (with_skew 2)) []
         empty_world) = Returns true.
Proof.
  apply (C5_skew_window (monday_at 20) (Filter OffHour (with_skew 2)) []
           empty_world "et" "America/New_York" (DateTime 735967 19 0 0 0)).
  - exact cache_ok_empty.
  - reflexivity.
  - reflexivity.
  - reflexivity.
  - right. split; discriminate.
  - reflexivity.
  - reflexivity.
  - reflexivity.
  - reflexivity.
  - left. reflexivity.
Defined.

Lemma C6_weekend_skip_witness :
  fst (call sunday_evening_pacific (Filter OffHour no_options)
         (tagged "off=(u,22);on=(u,7);tz=pt") empty_world) = Returns false.
Proof.
  apply (C6_weekend_skip sunday_evening_pacific (Filter OffHour no_options)
           (tagged "off=(u,22);on=(u,7);tz=pt") empty_world
           "America/Los_Angeles").
  - exact cache_ok_empty.
  - reflexivity.
  - vm_compute. reflexivity.
  - right. reflexivity.
Defined.

Lemma C7_off_token_disables_witness :
  call (monday_at 21) (Filter OffHour no_options)
    (tagged "off=(m-f,21);on=(m-f,7) OFF") empty_world
  = (Returns false, empty_world).
Proof.
  apply (C7_off_token_disables (monday_at 21) (Filter OffHour no_options)
           (tagged "off=(m-f,21);on=(m-f,7) OFF") empty_world
           ["off=(m-f,21);on=(m-f,7)"; "off"]).
  - vm_compute. reflexivity.
  - simpl. auto.
Defined.


(** ** The custom path *)

Section CustomPath.

Lemma index_In x l : In x l -> exists k, Py.index x l = Returns k.
Proof.
  induction l as [|y l IH]; simpl; [contradiction|].
  intros [-> | Hin].
  - rewrite String.eqb_refl. eauto.
  - destruct (String.eqb y x); [eauto|].
    destruct (IH Hin) as [k ->]. eauto.
Qed.

Lemma match_days_spec now h ds :
  Forall (fun d => In d VALID_DAYS) ds ->
  match_days now h ds
  = Returns (existsb (fun d => (Datetime.weekday now =? day_number d)
                               && (dt_hour now =? h)) ds).
Proof.
  induction 1 as [|d ds Hd _ IH]; [reflexivity|].
  cbn [match_days existsb]. unfold day_number.
  destruct (index_In _ _ Hd) as [k ->]. cbn [rbind].
  destruct (_ && _); [reflexivity | exact IH].
Qed.

Lemma match_rules_spec now rules :
  Forall rule_ok rules ->
  match_rules now rules = Returns (existsb (rule_hits now) rules).
Proof.
  induction 1 as [|r rules Hr _ IH]; [reflexivity|].
  cbn [match_rules existsb]. rewrite match_days_spec by exact Hr.
  cbn [rbind]. fold (rule_hits now r).
  destruct (rule_hits now r); [reflexivity | exact IH].
Qed.

(** In a valid schedule the two lists come together and are not empty. *)
Lemma is_valid_lists p :
  ScheduleParser.is_valid p = true ->
  (sched_on p = None /\ sched_off p = None)
  \/ (truthy (sched_on p) = true /\ truthy (sched_off p) = true).
Proof.
  unfold ScheduleParser.is_valid.
  destruct (sched_off p) as [[|o off]|]; destruct (sched_on p) as [[|n on]|];
    cbn [truthy]; auto; try discriminate.
  destruct (negb (ScheduleParser.is_valid_hours (o :: off)));
    [discriminate|]. simpl. discriminate.
Qed.

Lemma size_one_only (m : gmap string string) (k : string) (v : string) :
  m !! k = Some v ->
  size m = 1%nat <-> (forall k', is_Some (m !! k') -> k' = k).
Proof.
  intros Hk.
  rewrite <- (insert_delete_id m k v Hk) at 1.
  rewrite map_size_insert_None by apply lookup_delete_eq.
  split.
  - intros Hs k' [v' Hv'].
    destruct (decide (k' = k)) as [|Hne]; [assumption|].
    assert (He : delete k m = ∅) by (apply map_size_empty_iff; lia).
    assert (Hd : delete k m !! k' = Some v')
      by (rewrite lookup_delete_ne; [assumption | congruence]).
    rewrite He, lookup_empty in Hd. discriminate.
  - intros Honly. f_equal. apply map_size_empty_iff, map_eq. intros k'.
    rewrite lookup_empty.
    destruct (decide (k = k')) as [<-|Hne]; [apply lookup_delete_eq|].
    rewrite lookup_delete_ne by assumption.
    destruct (m !! k') as [v'|] eqn:E; [|reflexivity].
    exfalso. apply Hne. symmetry. apply Honly. eauto.
Qed.

End CustomPath.

(** C3 (as the code has it): for every successfully parsed schedule the
    custom path is taken exactly when its on and off lists are not empty and
    it holds no key besides [tz], [on] and [off].  On that path the on-hour
    variant answers from the on list, the off-hour variant from the off
    list, and the base variant returns false.  A schedule without on/off
    lists is never custom, and whenever the schedule is not custom the
    evaluation goes on to the sentinel path. *)
Theorem C3_custom_path :
  forall (s : string) (p : schedule),
    ScheduleParser.parse_uncached s = Returns (Some p) ->
    (is_custom p = true <->
     truthy (sched_on p) = true /\ truthy (sched_off p) = true
     /\ (forall k, is_Some (sched_str p !! k) -> k = "tz"))
    /\ (sched_on p = None \/ sched_off p = None -> is_custom p = false)
    /\ (is_custom p = true ->
        exists on off,
          sched_on p = Some on /\ sched_off p = Some off
          /\ forall now o,
              get_custom_time (Filter OnHour o) now p
              = Returns (existsb (rule_hits now) on)
              /\ get_custom_time (Filter OffHour o) now p
                 = Returns (existsb (rule_hits now) off)
              /\ get_custom_time (Filter Time o) now p = Returns false)
    /\ (forall sys self rest w t tz,
           cache_ok (cache w) ->
           sched_str p !! "tz" = Some t ->
           gettz sys (zone_name t) = Some tz ->
           (weekends self = true
            \/ (Datetime.weekday (clock sys (reads w) tz) <> 5
                /\ Datetime.weekday (clock sys (reads w) tz) <> 6)) ->
           exists c,
             process_current_time sys self (s :: rest) w
             = let now := truncate (clock sys (reads w) tz) in
               let w' := World c (S (reads w)) in
               if is_custom p then (get_custom_time self now p, w')
               else sentinel_path sys self tz now w').
Proof.
  intros s p Hparse.
  destruct (parse_uncached_wf s p Hparse) as ((_ & Hon & Hoff) & Hvalid & t0 & Ht0 & _).
  assert (Hiff : is_custom p = true <->
                 truthy (sched_on p) = true /\ truthy (sched_off p) = true
                 /\ (forall k, is_Some (sched_str p !! k) -> k = "tz")).
  { rewrite <- (size_one_only _ _ _ Ht0). unfold is_custom, sched_len.
    destruct (sched_on p) as [[|n on]|]; destruct (sched_off p) as [[|o off]|];
      cbn [truthy];
      rewrite ?andb_false_r; cbn [andb];
      try (split; [discriminate | intros (H1 & H2 & _); discriminate]).
    rewrite !andb_true_r.
    destruct (Nat.eqb_spec (1 + 1 + size (sched_str p)) 3) as [E|E]; split;
      try discriminate; try (intros _; repeat split; lia).
    intros (_ & _ & Hs). exfalso. apply E. now rewrite Hs. }
  split; [exact Hiff|]. split; [|split].
  - unfold is_custom. intros [-> | ->]; cbn [truthy];
      now rewrite ?andb_false_r.
  - intros Hcustom. apply Hiff in Hcustom as (Ton & Toff & _).
    destruct (sched_on p) as [on|] eqn:Eon; [|discriminate].
    destruct (sched_off p) as [off|] eqn:Eoff; [|discriminate].
    exists on, off. repeat split; unfold get_custom_time; cbn; rewrite ?Eon, ?Eoff.
    + apply match_rules_spec. now apply Hon.
    + apply match_rules_spec. now apply Hoff.
  - intros sys self rest w t tz Hc Ht Htz Hwk.
    assert (Heff : effective_schedule (s :: rest) = p).
    { unfold effective_schedule. now rewrite Hparse. }
    destruct (process_current_time_eq sys self (s :: rest) w t Hc) as (c & _ & ->);
      [now rewrite Heff|].
    exists c. rewrite Htz, Heff. cbv zeta.
    change (Datetime.weekday (truncate (clock sys (reads w) tz)))
      with (Datetime.weekday (clock sys (reads w) tz)).
    destruct Hwk as [-> | [H5 H6]]; [reflexivity|].
    apply Z.eqb_neq in H5, H6. rewrite H5, H6, andb_false_r. reflexivity.
Qed.

(** C3 as stated fails: an unknown key next to non-empty on and off lists
    makes the schedule four keys long, [is_custom] rejects it and the
    off-hour filter answers from the default sentinel hour 19 (a match on
    Monday at 19:30) although the off list, with hour 21, has no match. *)
Lemma C3_counterexample :
  exists p,
    ScheduleParser.parse_uncached "off=(m-f,21);on=(m-f,7);x=y" = Returns (Some p)
    /\ truthy (sched_on p) = true /\ truthy (sched_off p) = true
    /\ sched_str p !! "x" = Some "y"
    /\ is_custom p = false
    /\ get_custom_time (Filter OffHour no_options)
         (truncate (clock (monday_at 19) 0 "America/New_York")) p = Returns false
    /\ fst (call (monday_at 19) (Filter OffHour no_options)
              (tagged "off=(m-f,21);on=(m-f,7);x=y") empty_world) = Returns true.
Proof.
  eexists. split; [vm_compute; reflexivity|].
  repeat split; vm_compute; reflexivity.
Qed.

Lemma C3_custom_path_witness :
  is_custom
    (Schedule (Some [HourRule ["m"; "t"; "w"; "h"; "f"] 7])
       (Some [HourRule ["m"; "t"; "w"; "h"; "f"] 21]) {["tz" := "pst"]}) = true.
Proof.
  apply (C3_custom_path "off=(m-f,21);on=(m-f,7);tz=pst"
           (Schedule (Some [HourRule ["m"; "t"; "w"; "h"; "f"] 7])
              (Some [HourRule ["m"; "t"; "w"; "h"; "f"] 21]) {["tz" := "pst"]})).
  - vm_compute. reflexivity.
  - repeat split. intros k [v Hk]. cbn [sched_str] in Hk.
    destruct (decide (k = "tz")) as [|Hne]; [assumption|].
    rewrite lookup_singleton_ne in Hk by congruence. discriminate.
Defined.

(** ** Malformed groups *)

Section Malformed.
Import ScheduleParser.

Lemma is_valid_hours_loop_app l1 l2 :
  is_valid_hours_loop (l1 ++ l2)
  = is_valid_hours_loop l1 && is_valid_hours_loop l2.
Proof.
  induction l1 as [|r l1 IH]; simpl; [reflexivity|].
  destruct (is_valid_hour r); simpl; [exact IH | reflexivity].
Qed.

Lemma is_valid_hours_loop_false l :
  is_valid_hours_loop l = false -> is_valid_hours l = false.
Proof.
  unfold is_valid_hours. intros ->. now destruct (length l <=? 0)%nat.
Qed.

(** Once a rule without days is recorded the list stays invalid. *)
Lemma parse_groups_poisoned hours parsed l :
  is_valid_hours_loop parsed = false ->
  parse_groups hours parsed = Returns l ->
  is_valid_hours l = false.
Proof.
  revert parsed. induction hours as [|g rest IH]; intros parsed Hbad; simpl.
  - intros [= <-]. now apply is_valid_hours_loop_false.
  - destruct (Py.split "," _) as [|d [|h [|? ?]]];
      try (intros [= <-]; reflexivity).
    destruct (parse_group d h) as [r|e].
    + apply IH. now rewrite is_valid_hours_loop_app, Hbad.
    + destruct e; try discriminate. now intros [= <-].
Qed.

Lemma parse_groups_rejected hours parsed l :
  existsb group_rejected (List.map group_fields hours) = true ->
  parse_groups hours parsed = Returns l ->
  is_valid_hours l = false.
Proof.
  revert parsed. induction hours as [|g rest IH]; intros parsed; simpl;
    [discriminate|].
  unfold group_fields at 1.
  destruct (Py.split "," _) as [|d [|h [|? ?]]];
    try (intros _ [= <-]; reflexivity).
  unfold group_rejected at 1.
  destruct (parse_group d h) as [r|e].
  - destruct (is_valid_hour r) eqn:Er; simpl.
    + apply IH.
    + intros _. apply parse_groups_poisoned.
      rewrite is_valid_hours_loop_app. simpl. rewrite Er.
      apply andb_false_r.
  - intros _. destruct e; try discriminate. now intros [= <-].
Qed.

Lemma custom_hours_rejected v :
  existsb group_rejected (groups v) = true ->
  is_valid_hours (custom_hours v) = false.
Proof.
  intros H. unfold custom_hours.
  destruct (parse_custom_hours v) as [l|] eqn:E; [|reflexivity].
  exact (parse_groups_rejected _ _ _ H E).
Qed.

Lemma piece_value_eq key piece v :
  piece_value key piece = Some v -> Py.split "=" piece = [key; v].
Proof.
  unfold piece_value.
  destruct (Py.split "=" piece) as [|k [|v' [|? ?]]]; try discriminate.
  destruct (String.eqb_spec k key); [|discriminate]. now intros [= <-]; subst.
Qed.

Lemma piece_value_none key piece k v :
  piece_value key piece = None -> Py.split "=" piece = [k; v] -> k <> key.
Proof.
  unfold piece_value. intros H E. rewrite E in H.
  destruct (String.eqb_spec k key); [discriminate | assumption].
Qed.

(** What [parse] leaves under ['on'] and ['off'] is the parse of the last
    value given for the key. *)
Lemma parse_pieces_last pieces s s' acc_on acc_off :
  sched_on s = custom_hours <$> acc_on ->
  sched_off s = custom_hours <$> acc_off ->
  parse_pieces pieces s = Returns s' ->
  sched_on s' = custom_hours <$> last_value_from "on" pieces acc_on
  /\ sched_off s' = custom_hours <$> last_value_from "off" pieces acc_off.
Proof.
  revert s acc_on acc_off.
  induction pieces as [|piece rest IH]; intros s acc_on acc_off Hon Hoff.
  - simpl. intros [= <-]. now split.
  - cbn [parse_pieces last_value_from].
    destruct (parse_piece s piece) as [s1|] eqn:E; [|discriminate].
    apply IH; revert E; unfold parse_piece, piece_value;
      destruct (Py.split "=" piece) as [|k [|v [|? ?]]];
      try (intros [= <-]; assumption);
      unfold custom_hours in *;
      destruct (parse_custom_hours_returns v) as [l Hl];
      (destruct (String.eqb_spec k "on") as [->|Hn1];
       [rewrite Hl; cbn [rbind]; intros [= <-]; simpl; now rewrite ?Hl|]);
      (destruct (String.eqb_spec k "off") as [->|Hn2];
       [rewrite Hl; cbn [rbind]; intros [= <-]; simpl; now rewrite ?Hl|]);
      intros [= <-]; assumption.
Qed.

Lemma is_valid_bad_on p l :
  sched_on p = Some l -> is_valid_hours l = false -> is_valid p = false.
Proof.
  unfold is_valid. intros -> Hl. rewrite Hl.
  destruct (sched_off p) as [off|]; [|reflexivity].
  now destruct (negb (is_valid_hours off)).
Qed.

Lemma is_valid_bad_off p l :
  sched_off p = Some l -> is_valid_hours l = false -> is_valid p = false.
Proof.
  unfold is_valid. intros -> Hl. rewrite Hl.
  now destruct (sched_on p).
Qed.

(** A rejected group in the value that stays bound to ['on'] or ['off']
    invalidates the whole schedule. *)
Lemma rejected_group_invalid s key v :
  key = "on" \/ key = "off" ->
  last_value key s = Some v ->
  existsb group_rejected (groups v) = true ->
  parse_uncached s = Returns None.
Proof.
  intros Hkey Hlast Hrej. unfold parse_uncached.
  destruct (parse_pieces_returns (Py.split ";" s) empty_schedule) as [s0 E].
  rewrite E. cbn [rbind].
  destruct (parse_pieces_last (Py.split ";" s) empty_schedule s0 None None
              eq_refl eq_refl E) as [Hon Hoff].
  apply custom_hours_rejected in Hrej.
  set (s1 := match sched_str s0 !! "tz" with
             | Some _ => s0
             | None => set_str "tz" DEFAULT_TZ s0
             end).
  assert (H1 : sched_on s1 = sched_on s0 /\ sched_off s1 = sched_off s0)
    by (unfold s1; destruct (sched_str s0 !! "tz"); now split).
  destruct H1 as [H1on H1off].
  assert (Hbad : is_valid s1 = false).
  { destruct Hkey as [-> | ->]; unfold last_value in Hlast.
    - rewrite Hlast in Hon. apply (is_valid_bad_on _ (custom_hours v));
        [now rewrite H1on | assumption].
    - rewrite Hlast in Hoff. apply (is_valid_bad_off _ (custom_hours v));
        [now rewrite H1off | assumption]. }
  now rewrite Hbad.
Qed.



Lemma reversed_expand_all :
  Forall (fun d => expand_day_range d = Returns []) reversed_ranges.
Proof. vm_compute reversed_ranges. repeat constructor. Qed.

Lemma reversed_expand d :
  is_reversed_range d = true -> expand_day_range d = Returns [].
Proof.
  unfold is_reversed_range, Py.mem. intros H.
  apply existsb_exists in H as (x & Hx & Heq).
  apply String.eqb_eq in Heq. subst x.
  pose proof reversed_expand_all as Hall.
  rewrite Forall_forall in Hall. apply Hall. now apply list_elem_of_In.
Qed.

Lemma reversed_rejected fields :
  has_reversed_range fields = true -> group_rejected fields = true.
Proof.
  unfold has_reversed_range, group_rejected.
  destruct fields as [|d [|h [|? ?]]]; auto.
  intros Hd. unfold parse_group.
  destruct (Py.int h) as [n|]; cbn [rbind]; [|reflexivity].
  destruct (negb (is_valid_hour_range n)); [reflexivity|].
  now rewrite (reversed_expand d Hd).
Qed.

Lemma existsb_impl {A : Type} (f g : A -> bool) l :
  (forall x, f x = true -> g x = true) ->
  existsb f l = true -> existsb g l = true.
Proof.
  intros Hfg H. apply existsb_exists in H as (x & Hx & Hf).
  apply existsb_exists. eauto.
Qed.

End Malformed.




(** C10 (as the code has it): a day range [a-b] with [a] strictly after [b]
    in the week expands to the empty day list, and when such a range stands
    in a group of the value that stays bound to [on] or to [off] (the value
    of the last such pair of the raw string) [parse] returns the invalid
    result: the range is not wrapped around the week. *)
Theorem C10_reversed_range_invalid :
  forall (s key v : string),
    key = "on" \/ key = "off" ->
    last_value key s = Some v ->
    existsb has_reversed_range (groups v) = true ->
    (forall d, is_reversed_range d = true ->
               ScheduleParser.expand_day_range d = Returns [])
    /\ ScheduleParser.parse_uncached s = Returns None.
Proof.
  intros s key v Hkey Hlast Hrev.
  split; [exact reversed_expand|].
  apply (existsb_impl _ group_rejected) in Hrev; [|apply reversed_rejected].
  exact (rejected_group_invalid s key v Hkey Hlast Hrev).
Qed.

(** C10 as stated fails: the first [on=] value holds the reversed range
    [f-m], a later [on=] pair overwrites it, and [parse] returns a
    schedule. *)
Lemma C10_counterexample :
  has_reversed_day_range "on=(f-m,7);off=(m-f,19);on=(m-f,7)" = true
  /\ values_of "on" "on=(f-m,7);off=(m-f,19);on=(m-f,7)" = ["(f-m,7)"; "(m-f,7)"]
  /\ is_reversed_range "f-m" = true
  /\ ScheduleParser.parse_uncached "on=(f-m,7);off=(m-f,19);on=(m-f,7)"
     = Returns (Some (Schedule (Some [HourRule ["m"; "t"; "w"; "h"; "f"] 7])
                        (Some [HourRule ["m"; "t"; "w"; "h"; "f"] 19])
                        {["tz" := "et"]})).
Proof. repeat split; vm_compute; reflexivity. Qed.

Lemma C10_reversed_range_invalid_witness :
  ScheduleParser.parse_uncached "off=(f-m,19);on=(m-f,7)" = Returns None.
Proof.
  apply (C10_reversed_range_invalid "off=(f-m,19);on=(m-f,7)" "off" "(f-m,19)").
  - right. reflexivity.
  - vm_compute. reflexivity.
  - vm_compute. reflexivity.
Defined.

(** ** The cache stays sound across evaluations *)

Lemma sentinel_path_cache sys self tz now w :
  cache (snd (sentinel_path sys self tz now w)) = cache w.
Proof.
  unfold sentinel_path, bind. rewrite get_sentinel_time_eq.
  destruct (sentinel_of self (clock sys (reads w) tz)) as [st|]; [|reflexivity].
  destruct (Datetime.eqb st now); [reflexivity|].
  destruct (skew self =? 0); reflexivity.
Qed.

Lemma process_current_time_cache_ok sys self parts w :
  cache_ok (cache w) ->
  cache_ok (cache (snd (process_current_time sys self parts w))).
Proof.
  intros Hc. destruct (effective_schedule_tz parts) as (t & Ht & _).
  destruct (process_current_time_eq sys self parts w t Hc Ht) as (c & Hc' & ->).
  destruct (gettz sys (zone_name t)) as [tz|]; [|exact Hc'].
  cbv zeta. destruct (negb (weekends self) && _); [exact Hc'|].
  destruct (is_custom (effective_schedule parts)); [exact Hc'|].
  now rewrite sentinel_path_cache.
Qed.

Lemma call_cache_ok sys self i w :
  cache_ok (cache w) -> cache_ok (cache (snd (call sys self i w))).
Proof.
  intros Hc. destruct (fst (get_tag_parts self i)) as [parts|] eqn:Ep.
  - rewrite (call_present_tag _ _ _ _ Ep).
    destruct (Py.mem "off" parts);
      [exact Hc | now apply process_current_time_cache_ok].
  - rewrite (call_missing_tag _ _ _ Ep).
    destruct (opt_out self);
      [now apply process_current_time_cache_ok | exact Hc].
Qed.

(** ** The cases of the repository's parser tests *)

Example test_parses_schedule :
  ScheduleParser.parse_uncached "off=(m-f,19);on=(m-f,7);tz=pst"
  = Returns (Some (Schedule (Some (weekdays_at 7)) (Some (weekdays_at 19))
                     {["tz" := "pst"]})).
Proof. vm_compute. reflexivity. Qed.

Example test_parses_bad_days_schedule :
  ScheduleParser.parse_uncached "off=(m-z,19);on=(m-f,7);tz=pst" = Returns None
  /\ ScheduleParser.parse_uncached "off=(m-f,19);on=(m-z,7);tz=pst" = Returns None.
Proof. split; vm_compute; reflexivity. Qed.

Example test_parses_bad_hours_schedule :
  ScheduleParser.parse_uncached "off=(m-f,19);on=(m-f,99);tz=pst" = Returns None
  /\ ScheduleParser.parse_uncached "off=(m-f,9);on=(m-z,7),(m,1,2);tz=pst"
     = Returns None.
Proof. split; vm_compute; reflexivity. Qed.

Example test_parses_default_tz :
  ScheduleParser.parse_uncached "off=(m-f,19);on=(m-f,7)"
  = Returns (Some (Schedule (Some (weekdays_at 7)) (Some (weekdays_at 19))
                     {["tz" := DEFAULT_TZ]})).
Proof. vm_compute. reflexivity. Qed.

Example test_parses_multiple_hours :
  ScheduleParser.parse_uncached "off=[(m-f,19),(s,9)];on=[(m-f,7),(s,15)];tz=pst"
  = Returns (Some (Schedule (Some (weekdays_at 7 ++ [HourRule ["s"] 15])%list)
                     (Some (weekdays_at 19 ++ [HourRule ["s"] 9])%list)
                     {["tz" := "pst"]})).
Proof. vm_compute. reflexivity. Qed.

Example test_invalid_hour_and_day :
  ScheduleParser.parse_uncached "off=(m-f,asdf);on=(m-f,asdf)" = Returns None
  /\ ScheduleParser.parse_uncached "off=(asdf,19);on=(asdf,7)" = Returns None.
Proof. split; vm_compute; reflexivity. Qed.

Example test_valid_hour_range :
  List.map ScheduleParser.is_valid_hour_range [0; 12; 23; 24; 99]
  = [true; true; true; false; false].
Proof. reflexivity. Qed.

Example test_valid_day :
  forallb ScheduleParser.is_valid_day VALID_DAYS = true
  /\ ScheduleParser.is_valid_day "x" = false.
Proof. split; reflexivity. Qed.

(** ** The sentinel path in general *)

Section SentinelWindow.

Lemma replace_hour_bad h t :
  ~ (0 <= h <= 23) -> Datetime.replace (Some h) None None None t = Raises ValueError.
Proof.
  intros Hh. unfold Datetime.replace, Datetime.in_range.
  replace ((0 <=? h) && (h <=? 23)) with false; [reflexivity|].
  symmetry. apply andb_false_iff.
  destruct (Z.leb_spec 0 h); [right; apply Z.leb_gt; lia | now left].
Qed.

Lemma sentinel_of_hour self t st :
  sentinel_of self t = Returns st -> 0 <= dt_hour st <= 23.
Proof.
  assert (Hr : forall h b b', Datetime.replace (Some h) None None None b = Returns b' ->
                              0 <= dt_hour b' <= 23).
  { intros h b b'. destruct (Z_le_dec 0 h) as [H0|H0];
      [destruct (Z_le_dec h 23) as [H1|H1]|].
    - rewrite replace_hour_ok by lia. intros [= <-]. simpl. lia.
    - rewrite replace_hour_bad by lia. discriminate.
    - rewrite replace_hour_bad by lia. discriminate. }
  unfold sentinel_of.
  destruct (Datetime.replace _ _ _ _ t) as [b|] eqn:Eb; cbn [rbind];
    [|discriminate].
  destruct (cls self); [|apply Hr|apply Hr].
  intros [= <-]. revert Eb. unfold Datetime.replace.
  destruct (Datetime.in_range 0 23 _) eqn:E; [|discriminate].
  destruct (_ && _); [|discriminate].
  intros [= <-]. simpl. unfold Datetime.in_range in E.
  apply andb_true_iff in E as [E1 E2]. apply Z.leb_le in E1, E2. lia.
Qed.

(** The loop over the hours after the sentinel hour [h]: it answers true at
    the first probed hour equal to the hour of now, false when every probed
    hour is a valid hour and none is equal, and raises once a probed hour
    passes 23. *)
Lemma skew_loop_spec h now :
  0 <= h ->
  forall n a x,
    skew_loop h (List.map (fun j => 1 + Z.of_nat j) (seq a n))
      (DateTime (dt_date now) x 0 0 0) (truncate now)
    = if (n =? 0)%nat then Returns false
      else if (h + 1 + Z.of_nat a <=? dt_hour now)
              && (dt_hour now <=? Z.min (h + Z.of_nat a + Z.of_nat n) 23)
      then Returns true
      else if h + Z.of_nat a + Z.of_nat n <=? 23 then Returns false
      else Raises ValueError.
Proof.
  intros Hh. induction n as [|n IH]; intros a x; [reflexivity|].
  cbn [seq List.map skew_loop Nat.eqb].
  destruct (Z_le_dec (h + (1 + Z.of_nat a)) 23) as [Hle|Hgt].
  - rewrite replace_hour_ok by lia. cbn [rbind dt_date dt_minute dt_second dt_microsecond].
    rewrite eqb_at_hour by reflexivity.
    destruct (Z.eqb_spec (h + (1 + Z.of_nat a)) (dt_hour now)) as [E|E].
    + replace ((h + 1 + Z.of_nat a <=? dt_hour now)
               && (dt_hour now <=? Z.min (h + Z.of_nat a + Z.of_nat (S n)) 23))
        with true; [reflexivity|].
      symmetry. apply andb_true_iff. split; apply Z.leb_le; lia.
    + rewrite IH. destruct n as [|n].
      * cbn [Nat.eqb].
        replace ((h + 1 + Z.of_nat a <=? dt_hour now)
                 && (dt_hour now <=? Z.min (h + Z.of_nat a + Z.of_nat 1) 23))
          with false.
        { replace (h + Z.of_nat a + Z.of_nat 1 <=? 23) with true; [reflexivity|].
          symmetry. apply Z.leb_le. lia. }
        symmetry. apply andb_false_iff.
        destruct (Z.leb_spec (h + 1 + Z.of_nat a) (dt_hour now));
          [right; apply Z.leb_gt; lia | now left].
      * cbn [Nat.eqb].
        replace (h + Z.of_nat (S a) + Z.of_nat (S n))
          with (h + Z.of_nat a + Z.of_nat (S (S n))) by lia.
        replace (h + 1 + Z.of_nat (S a) <=? dt_hour now)
          with (h + 1 + Z.of_nat a <=? dt_hour now); [reflexivity|].
        destruct (Z.leb_spec (h + 1 + Z.of_nat a) (dt_hour now));
          symmetry; [apply Z.leb_le | apply Z.leb_gt]; lia.
  - rewrite replace_hour_bad by lia. cbn [rbind].
    replace ((h + 1 + Z.of_nat a <=? dt_hour now)
             && (dt_hour now <=? Z.min (h + Z.of_nat a + Z.of_nat (S n)) 23))
      with false.
    { replace (h + Z.of_nat a + Z.of_nat (S n) <=? 23) with false; [reflexivity|].
      symmetry. apply Z.leb_gt. lia. }
    symmetry. apply andb_false_iff.
    destruct (Z.leb_spec (h + 1 + Z.of_nat a) (dt_hour now));
      [right; apply Z.leb_gt; lia | now left].
Qed.

(** The decision of the sentinel path for any sentinel hour [h] and skew
    [k], with the [minute] option at 0 and both clock readings on one day:
    a match at hours [h .. min (h + k) 23], no match elsewhere when
    [h + k <= 23], and a [ValueError] elsewhere when [h + k > 23]. *)
Lemma sentinel_path_decision sys self tz w st :
  default 0 (opt_minute (data self)) = 0 ->
  sentinel_of self (clock sys (reads w) tz) = Returns st ->
  forall now,
    dt_date now = dt_date (clock sys (reads w) tz) ->
    fst (sentinel_path sys self tz (truncate now) w)
    = let h := dt_hour st in
      let k := skew self in
      if h =? dt_hour now then Returns true
      else if k <=? 0 then Returns false
      else if (h + 1 <=? dt_hour now) && (dt_hour now <=? Z.min (h + k) 23)
      then Returns true
      else if h + k <=? 23 then Returns false
      else Raises ValueError.
Proof.
  intros Hmin Hst now Hdate.
  unfold sentinel_path, bind. rewrite get_sentinel_time_eq, Hst.
  pose proof (sentinel_of_hour _ _ _ Hst) as Hrange.
  apply sentinel_of_fields in Hst as (Hd & Hm & Hs & Hu).
  rewrite Hmin in Hm. rewrite <- Hdate in Hd.
  destruct st as [d h m s u]. simpl in Hrange, Hd, Hm, Hs, Hu. subst d m s u.
  cbn [dt_hour]. cbv zeta.
  rewrite eqb_at_hour by reflexivity.
  destruct (h =? dt_hour now); [reflexivity|].
  destruct (Z.eqb_spec (skew self) 0) as [E0|E0].
  { rewrite E0. reflexivity. }
  unfold lift, Py.range. cbn [fst].
  replace (skew self + 1 - 1) with (skew self) by lia.
  destruct (Z.leb_spec (skew self) 0) as [Hneg|Hpos].
  { replace (Z.to_nat (skew self)) with O by lia. reflexivity. }
  rewrite (skew_loop_spec h now) by lia.
  destruct (Nat.eqb_spec (Z.to_nat (skew self)) 0) as [En|En]; [lia|].
  rewrite Z2Nat.id by lia. cbn [Z.of_nat]. rewrite !Z.add_0_r. reflexivity.
Qed.

End SentinelWindow.

(** On the sentinel path, a positive skew that reaches past hour 23 makes the
    filter raise whenever now is before the sentinel hour. *)
Lemma skew_past_midnight_raises sys self parts w t tz st :
  cache_ok (cache w) ->
  sched_str (effective_schedule parts) !! "tz" = Some t ->
  gettz sys (zone_name t) = Some tz ->
  is_custom (effective_schedule parts) = false ->
  (weekends self = true
   \/ (Datetime.weekday (clock sys (reads w) tz) <> 5
       /\ Datetime.weekday (clock sys (reads w) tz) <> 6)) ->
  default 0 (opt_minute (data self)) = 0 ->
  sentinel_of self (clock sys (S (reads w)) tz) = Returns st ->
  dt_date (clock sys (S (reads w)) tz) = dt_date (clock sys (reads w) tz) ->
  0 < skew self ->
  23 < dt_hour st + skew self ->
  dt_hour (clock sys (reads w) tz) < dt_hour st ->
  fst (process_current_time sys self parts w) = Raises ValueError.
Proof.
  intros Hc Ht Htz Hcustom Hwk Hmin Hst Hdate Hk Hover Hnow.
  destruct (process_current_time_eq sys self parts w t Hc Ht) as (c & _ & ->).
  rewrite Htz. cbv zeta.
  change (Datetime.weekday (truncate (clock sys (reads w) tz)))
    with (Datetime.weekday (clock sys (reads w) tz)).
  assert (Hno : negb (weekends self)
                && ((Datetime.weekday (clock sys (reads w) tz) =? 5)
                    || (Datetime.weekday (clock sys (reads w) tz) =? 6)) = false).
  { destruct Hwk as [-> | [H5 H6]]; [reflexivity|].
    apply Z.eqb_neq in H5, H6. rewrite H5, H6. apply andb_false_r. }
  rewrite Hno, Hcustom.
  rewrite (sentinel_path_decision sys self tz (World c (S (reads w))) st Hmin Hst)
    by (symmetry; exact Hdate).
  cbv zeta.
  destruct (Z.eqb_spec (dt_hour st) (dt_hour (clock sys (reads w) tz))); [lia|].
  destruct (Z.leb_spec (skew self) 0); [lia|].
  destruct (Z.leb_spec (dt_hour st + 1) (dt_hour (clock sys (reads w) tz))); [lia|].
  cbn [andb].
  destruct (Z.leb_spec (dt_hour st + skew self) 23); [lia | reflexivity].
Qed.

(** * Further properties of the parser *)

Section ParserMore.
Import ScheduleParser.

Local Arguments Ascii.eqb : simpl never.
Local Arguments ascii_dec : simpl never.

Lemma no_eq_snoc cur c : no_eq cur -> c <> "="%char -> no_eq (Py.snoc cur c).
Proof.
  unfold no_eq, Py.snoc. intros Hcur Hc. rewrite mem_ascii_app, Hcur.
  unfold Py.mem_ascii. simpl.
  destruct (Ascii.eqb_spec "="%char c); [congruence | reflexivity].
Qed.

(** The pieces of any split are made of characters of the input. *)
Lemma split_from_keeps_no_eq sep s :
  forall skip cur,
    no_eq cur -> no_eq s -> Forall no_eq (Py.split_from sep skip cur s).
Proof.
  induction s as [|c s IH]; intros skip cur Hcur Hs.
  - simpl. now constructor.
  - apply no_eq_cons in Hs as [Hc Hs]. cbn [Py.split_from].
    destruct skip as [|k]; [|now apply IH].
    destruct (String.prefix sep (String c s)).
    + constructor; [assumption|]. now apply IH.
    + apply IH; [now apply no_eq_snoc | assumption].
Qed.

Lemma split_no_eq_piece piece : no_eq piece -> Py.split "=" piece = [piece].
Proof. intros H. unfold Py.split. now rewrite split_from_no_eq. Qed.

Lemma parse_pieces_skipped pieces s :
  Forall no_eq pieces -> parse_pieces pieces s = Returns s.
Proof.
  induction 1 as [|piece rest Hp _ IH]; [reflexivity|].
  cbn [parse_pieces]. unfold parse_piece.
  now rewrite (split_no_eq_piece _ Hp).
Qed.

End ParserMore.

(** A raw string without any ['='] holds no key-value piece: whatever else
    it contains, [parse] returns the default schedule (timezone [DEFAULT_TZ],
    no custom hours), not the invalid result. *)
Theorem parse_without_pairs :
  forall s : string,
    no_eq s ->
    ScheduleParser.parse_uncached s = Returns (Some default_schedule).
Proof.
  intros s Hs. unfold ScheduleParser.parse_uncached.
  rewrite parse_pieces_skipped
    by (apply split_from_keeps_no_eq; [reflexivity | assumption]).
  reflexivity.
Qed.

Lemma parse_without_pairs_witness :
  ScheduleParser.parse_uncached "on;(m-f,19);garbage" = Returns (Some default_schedule).
Proof. apply parse_without_pairs. reflexivity. Defined.

Section ParserLast.
Import ScheduleParser.

(** What [parse] leaves under a string key is the last value given for it. *)
Lemma parse_pieces_last_str pieces k :
  k <> "on" -> k <> "off" ->
  forall s s',
    parse_pieces pieces s = Returns s' ->
    sched_str s' !! k = last_value_from k pieces (sched_str s !! k).
Proof.
  intros Hon Hoff. induction pieces as [|piece rest IH]; intros s s'.
  - simpl. now intros [= <-].
  - cbn [parse_pieces last_value_from].
    destruct (parse_piece s piece) as [s1|] eqn:E; [|discriminate].
    intros Hrest. rewrite (IH _ _ Hrest). f_equal.
    revert E. unfold parse_piece, piece_value.
    destruct (Py.split "=" piece) as [|k0 [|v [|? ?]]];
      try (now intros [= <-]).
    destruct (parse_custom_hours_returns v) as [l Hl].
    destruct (String.eqb_spec k0 "on") as [->|Hn1].
    { rewrite Hl. cbn [rbind]. intros [= <-].
      destruct (String.eqb_spec "on" k); [congruence | reflexivity]. }
    destruct (String.eqb_spec k0 "off") as [->|Hn2].
    { rewrite Hl. cbn [rbind]. intros [= <-].
      destruct (String.eqb_spec "off" k); [congruence | reflexivity]. }
    intros [= <-]. cbn [sched_str set_str]. rewrite lookup_insert.
    destruct (String.eqb_spec k0 k) as [->|Hne].
    + now rewrite decide_True.
    + now rewrite decide_False.
Qed.

End ParserLast.

(** In a parsed schedule every key holds the value of the last pair that
    names it: [on] and [off] hold the rules read from their last values,
    [tz] holds its last value or [DEFAULT_TZ] when no pair names it, and
    any other key holds its last value, or nothing. *)
Theorem parse_last_pair_wins :
  forall (s : string) (p : schedule),
    ScheduleParser.parse_uncached s = Returns (Some p) ->
    sched_on p = custom_hours <$> last_value "on" s
    /\ sched_off p = custom_hours <$> last_value "off" s
    /\ sched_str p !! "tz" = Some (default DEFAULT_TZ (last_value "tz" s))
    /\ forall k, k <> "on" -> k <> "off" -> k <> "tz" ->
                 sched_str p !! k = last_value k s.
Proof.
  intros s p. unfold ScheduleParser.parse_uncached.
  destruct (ScheduleParser.parse_pieces (Py.split ";" s) empty_schedule)
    as [s0|] eqn:E; cbn [rbind]; [|discriminate].
  destruct (parse_pieces_last (Py.split ";" s) empty_schedule s0 None None
              eq_refl eq_refl E) as [Hon Hoff].
  assert (Hstr : forall k, k <> "on" -> k <> "off" ->
                           sched_str s0 !! k = last_value k s).
  { intros k H1 H2. rewrite (parse_pieces_last_str _ k H1 H2 _ _ E).
    cbn [sched_str empty_schedule]. now rewrite lookup_empty. }
  assert (Htz : sched_str s0 !! "tz" = last_value "tz" s)
    by (apply Hstr; discriminate).
  destruct (sched_str s0 !! "tz") as [t|] eqn:Et.
  - destruct (ScheduleParser.is_valid s0); cbn [negb]; [|discriminate].
    intros [= <-]. rewrite <- Htz. repeat split; auto.
  - destruct (ScheduleParser.is_valid (set_str "tz" DEFAULT_TZ s0));
      cbn [negb]; [|discriminate].
    intros [= <-]. rewrite <- Htz. cbn [sched_on sched_off sched_str set_str].
    repeat split; auto.
    + now rewrite lookup_insert_eq.
    + intros k H1 H2 H3. rewrite lookup_insert_ne by congruence. now apply Hstr.
Qed.

Lemma parse_last_pair_wins_witness :
  sched_str (Schedule None None (<["x" := "2"]> {["tz" := "pt"]})) !! "tz"
  = Some (default DEFAULT_TZ (last_value "tz" "tz=et;x=1;tz=pt;x=2")).
Proof.
  refine (proj1 (proj2 (proj2
            (parse_last_pair_wins "tz=et;x=1;tz=pt;x=2"
               (Schedule None None (<["x" := "2"]> {["tz" := "pt"]})) _)))).
  vm_compute. reflexivity.
Defined.

Lemma is_valid_hours_pass l : ScheduleParser.is_valid_hours l = rules_pass l.
Proof.
  assert (Hloop : forall k,
             ScheduleParser.is_valid_hours_loop k
             = forallb (fun r => match days r with
                                 | [] => false
                                 | _ :: _ => true
                                 end) k).
  { induction k as [|r k IH]; [reflexivity|].
    cbn [ScheduleParser.is_valid_hours_loop forallb].
    unfold ScheduleParser.is_valid_hour.
    destruct (days r); cbn [length Nat.leb negb andb]; [reflexivity | exact IH]. }
  unfold ScheduleParser.is_valid_hours, rules_pass.
  destruct l as [|r l]; [reflexivity|].
  cbn [length Nat.leb]. apply Hloop.
Qed.

(** [parse] returns a schedule exactly when the values that stay bound to
    [on] and [off] are both absent, or both present with rule lists that are
    not empty and have no rule without days; a raw string that gives only
    one of the two is invalid. *)
Theorem parse_succeeds_iff :
  forall s : string,
    parses s = values_valid (last_value "on" s) (last_value "off" s).
Proof.
  intros s. unfold parses, ScheduleParser.parse_uncached.
  destruct (parse_pieces_returns (Py.split ";" s) empty_schedule) as [s0 E].
  rewrite E. cbn [rbind].
  destruct (parse_pieces_last (Py.split ";" s) empty_schedule s0 None None
              eq_refl eq_refl E) as [Hon Hoff].
  fold (last_value "on" s) in Hon. fold (last_value "off" s) in Hoff.
  set (s1 := match sched_str s0 !! "tz" with
             | Some _ => s0
             | None => set_str "tz" DEFAULT_TZ s0
             end).
  assert (H1 : sched_on s1 = sched_on s0 /\ sched_off s1 = sched_off s0)
    by (unfold s1; destruct (sched_str s0 !! "tz"); now split).
  destruct H1 as [H1on H1off].
  assert (Hv : ScheduleParser.is_valid s1
               = values_valid (last_value "on" s) (last_value "off" s)).
  { unfold ScheduleParser.is_valid. rewrite H1on, H1off, Hon, Hoff.
    destruct (last_value "on" s) as [a|], (last_value "off" s) as [b|];
      cbn [fmap option_fmap option_map values_valid]; try reflexivity.
    rewrite <- !is_valid_hours_pass.
    destruct (ScheduleParser.is_valid_hours (custom_hours b)),
      (ScheduleParser.is_valid_hours (custom_hours a)); reflexivity. }
  rewrite <- Hv. now destruct (ScheduleParser.is_valid s1).
Qed.

Section CustomHoursMore.
Import ScheduleParser.

Lemma parse_groups_rules hours :
  forall parsed,
    parse_groups hours parsed
    = Returns (match rules_of (List.map group_fields hours) with
               | Some l => (parsed ++ l)%list
               | None => []
               end).
Proof.
  induction hours as [|g rest IH]; intros parsed.
  - simpl. now rewrite app_nil_r.
  - cbn [parse_groups List.map rules_of]. unfold group_fields at 1.
    destruct (Py.split "," _) as [|d [|h [|? ?]]]; try reflexivity.
    cbn [group_rule].
    destruct (parse_group d h) as [r|e] eqn:E.
    + rewrite IH. destruct (rules_of _); [|reflexivity].
      now rewrite <- app_assoc.
    + apply parse_group_raises in E. now subst e.
Qed.

Lemma is_valid_hour_range_iff h : is_valid_hour_range h = true <-> 0 <= h <= 23.
Proof.
  unfold is_valid_hour_range. split.
  - intros H. apply existsb_exists in H as (x & Hx & Heq).
    apply Z.eqb_eq in Heq. subst x. simpl in Hx. lia.
  - intros H. apply existsb_exists. exists h. split; [|apply Z.eqb_refl].
    simpl. lia.
Qed.

Lemma index_Returns_In x l k : Py.index x l = Returns k -> In x l.
Proof.
  revert k. induction l as [|y l IH]; intros k; simpl; [discriminate|].
  destruct (String.eqb_spec y x) as [Heq|Hne]; [now left|].
  destruct (Py.index x l) as [m|]; [|discriminate].
  intros _. right. eauto.
Qed.

Section RuleInvariant.
Variable P : hour_rule -> Prop.
Hypothesis HP : forall d h r, parse_group d h = Returns r -> P r.

Lemma parse_groups_all hours :
  forall parsed l,
    Forall P parsed -> parse_groups hours parsed = Returns l -> Forall P l.
Proof.
  induction hours as [|g rest IH]; intros parsed l Hp; simpl.
  - now intros [= <-].
  - destruct (Py.split "," _) as [|d [|h [|? ?]]];
      try (intros [= <-]; constructor).
    destruct (parse_group d h) as [r|e] eqn:E.
    + apply IH. apply Forall_app. split; [assumption|].
      constructor; [eauto | constructor].
    + destruct e; try discriminate. intros [= <-]. constructor.
Qed.

Lemma custom_hours_all v : Forall P (custom_hours v).
Proof.
  unfold custom_hours.
  destruct (parse_custom_hours v) as [l|] eqn:E; [|constructor].
  exact (parse_groups_all _ _ _ (Forall_nil_2 P) E).
Qed.

End RuleInvariant.

Lemma expand_day_range_sublist d ds :
  expand_day_range d = Returns ds -> sublist ds VALID_DAYS.
Proof.
  unfold expand_day_range.
  destruct (String.length d =? 1)%nat.
  - destruct (is_valid_day d) eqn:Ev; simpl; [|discriminate].
    intros [= <-]. apply is_valid_day_In in Ev. simpl in Ev.
    decompose [or] Ev; try contradiction; subst d; repeat constructor.
  - destruct (Py.split "-" d) as [|d0 [|d1 [|? ?]]];
      try (intros [= <-]; apply sublist_nil_l).
    destruct (negb (is_valid_day d0) || negb (is_valid_day d1)); [discriminate|].
    destruct (Py.index d0 VALID_DAYS) as [i|]; cbn [rbind]; [|discriminate].
    destruct (Py.index d1 VALID_DAYS) as [j|]; cbn [rbind]; [|discriminate].
    intros [= <-]. unfold Py.slice.
    etransitivity; [apply sublist_drop | apply sublist_take].
Qed.

Lemma parse_group_shape d h r :
  parse_group d h = Returns r ->
  sublist (days r) VALID_DAYS /\ 0 <= hour r <= 23.
Proof.
  unfold parse_group.
  destruct (Py.int h) as [n|]; cbn [rbind]; [|discriminate].
  destruct (is_valid_hour_range n) eqn:En; cbn [negb]; [|discriminate].
  destruct (expand_day_range d) as [ds|] eqn:Ed; cbn [rbind]; [|discriminate].
  intros [= <-]. cbn [days hour]. split.
  - eauto using expand_day_range_sublist.
  - now apply is_valid_hour_range_iff.
Qed.

Lemma is_valid_hours_Forall l :
  is_valid_hours l = true -> l <> [] /\ Forall (fun r => days r <> []) l.
Proof.
  unfold is_valid_hours. destruct l as [|r0 l0]; [discriminate|].
  cbn [length Nat.leb]. intros H. split; [discriminate|].
  revert H. generalize (r0 :: l0). intros l. induction l as [|r l IH]; simpl.
  - constructor.
  - unfold is_valid_hour. destruct (days r) eqn:Ed; simpl; [discriminate|].
    intros H. constructor; [congruence | now apply IH].
Qed.

End CustomHoursMore.

(** [parse_custom_hours] is all or nothing: it returns the rules of all the
    groups, one per group and in their order, when every group has two
    fields and reads without a [ValueError], and the empty list as soon as
    one group does not; it never returns part of the rules and raises
    nothing. *)
Theorem parse_custom_hours_all_or_nothing :
  forall v : string,
    ScheduleParser.parse_custom_hours v
    = Returns (match rules_of (groups v) with
               | Some l => l
               | None => []
               end).
Proof.
  intros v. unfold ScheduleParser.parse_custom_hours, groups.
  rewrite parse_groups_rules. now destruct (rules_of _).
Qed.

(** The hours [is_valid_hour_range] accepts are the integers from 0 to 23:
    negative hours and hours from 24 on are refused. *)
Theorem valid_hours_are_0_to_23 :
  forall h : Z,
    ScheduleParser.is_valid_hour_range h = (0 <=? h) && (h <=? 23).
Proof.
  intros h. destruct (ScheduleParser.is_valid_hour_range h) eqn:E.
  - apply is_valid_hour_range_iff in E. symmetry.
    apply andb_true_iff. split; apply Z.leb_le; lia.
  - symmetry. apply not_true_is_false. intros H.
    apply andb_true_iff in H as [H1 H2]. apply Z.leb_le in H1, H2.
    assert (Ht : ScheduleParser.is_valid_hour_range h = true)
      by (apply is_valid_hour_range_iff; lia).
    congruence.
Qed.

(** A range [a-b] of two day codes expands to the days of the week from
    [a] to [b], both included: the slice of [VALID_DAYS] between their
    positions, with [j - i + 1] days when [a] does not come after [b]. *)
Theorem expand_day_range_ordered :
  forall (a b : string) (i j : nat),
    Py.index a VALID_DAYS = Returns i ->
    Py.index b VALID_DAYS = Returns j ->
    (i <= j)%nat ->
    ScheduleParser.expand_day_range (a +:+ "-" +:+ b)
    = Returns (Py.slice i (j + 1) VALID_DAYS)
    /\ length (Py.slice i (j + 1) VALID_DAYS) = (j - i + 1)%nat
    /\ head (Py.slice i (j + 1) VALID_DAYS) = Some a
    /\ last (Py.slice i (j + 1) VALID_DAYS) = Some b.
Proof.
  intros a b i j Hi Hj Hle.
  pose proof (index_Returns_In _ _ _ Hi) as Ha.
  pose proof (index_Returns_In _ _ _ Hj) as Hb.
  simpl in Ha, Hb.
  decompose [or] Ha; try contradiction; subst a;
    decompose [or] Hb; try contradiction; subst b;
    vm_compute in Hi, Hj; injection Hi as <-; injection Hj as <-;
    first [ exfalso; lia | repeat split; vm_compute; reflexivity ].
Qed.

Lemma expand_day_range_ordered_witness :
  ScheduleParser.expand_day_range ("t" +:+ "-" +:+ "h")
  = Returns (Py.slice 1 (3 + 1) VALID_DAYS)
  /\ length (Py.slice 1 (3 + 1) VALID_DAYS) = (3 - 1 + 1)%nat
  /\ head (Py.slice 1 (3 + 1) VALID_DAYS) = Some "t"
  /\ last (Py.slice 1 (3 + 1) VALID_DAYS) = Some "h".
Proof.
  apply (expand_day_range_ordered "t" "h" 1 3).
  - reflexivity.
  - reflexivity.
  - lia.
Defined.

Lemma parse_uncached_on_off s p :
  ScheduleParser.parse_uncached s = Returns (Some p) ->
  sched_on p = custom_hours <$> last_value "on" s
  /\ sched_off p = custom_hours <$> last_value "off" s.
Proof.
  unfold ScheduleParser.parse_uncached.
  destruct (ScheduleParser.parse_pieces (Py.split ";" s) empty_schedule)
    as [s0|] eqn:E; cbn [rbind]; [|discriminate].
  destruct (parse_pieces_last (Py.split ";" s) empty_schedule s0 None None
              eq_refl eq_refl E) as [Hon Hoff].
  destruct (sched_str s0 !! "tz");
    match goal with
    | |- context [negb (ScheduleParser.is_valid ?x)] =>
        destruct (ScheduleParser.is_valid x); cbn [negb]; [|discriminate]
    end;
    intros [= <-]; now split.
Qed.

(** Every schedule [parse] returns carries a timezone; its on and off lists
    are both absent or both present and not empty; and every rule has at
    least one day, its days in week order without repetition (a sublist of
    [VALID_DAYS]), and an hour from 0 to 23. *)
Theorem parsed_schedule_shape :
  forall (s : string) (p : schedule),
    ScheduleParser.parse_uncached s = Returns (Some p) ->
    is_Some (sched_str p !! "tz")
    /\ ((sched_on p = None /\ sched_off p = None)
        \/ (exists on off, sched_on p = Some on /\ sched_off p = Some off
                           /\ on <> [] /\ off <> []))
    /\ forall rules r,
         sched_on p = Some rules \/ sched_off p = Some rules ->
         In r rules ->
         days r <> [] /\ sublist (days r) VALID_DAYS /\ NoDup (days r)
         /\ 0 <= hour r <= 23.
Proof.
  intros s p Hparse.
  destruct (parse_uncached_wf s p Hparse) as (_ & Hvalid & t & Ht & _).
  destruct (parse_uncached_on_off s p Hparse) as (Hon & Hoff).
  split; [eauto|].
  pose proof (custom_hours_all _ parse_group_shape) as Hshape.
  assert (Hv : forall l, sched_on p = Some l \/ sched_off p = Some l ->
                         ScheduleParser.is_valid_hours l = true).
  { revert Hvalid. unfold ScheduleParser.is_valid.
    destruct (sched_off p) as [off|], (sched_on p) as [on|]; try discriminate.
    - destruct (ScheduleParser.is_valid_hours off) eqn:E1; [|discriminate].
      destruct (ScheduleParser.is_valid_hours on) eqn:E2; [|discriminate].
      intros _ l [[= <-] | [= <-]]; assumption.
    - intros _ l [H | H]; discriminate. }
  split.
  - destruct (sched_on p) as [on|] eqn:Eon, (sched_off p) as [off|] eqn:Eoff.
    + right. exists on, off. repeat split.
      * apply (is_valid_hours_Forall on). apply Hv. now left.
      * apply (is_valid_hours_Forall off). apply Hv. now right.
    + revert Hvalid. unfold ScheduleParser.is_valid. rewrite Eon, Eoff.
      discriminate.
    + revert Hvalid. unfold ScheduleParser.is_valid. rewrite Eon, Eoff.
      discriminate.
    + now left.
  - intros rules r Hrules Hin.
    pose proof (Hv rules Hrules) as Hvr.
    apply is_valid_hours_Forall in Hvr as [_ Hdays].
    rewrite List.Forall_forall in Hdays.
    assert (Hall : Forall (fun r => sublist (days r) VALID_DAYS
                                    /\ 0 <= hour r <= 23) rules).
    { destruct Hrules as [H | H].
      - rewrite H in Hon. destruct (last_value "on" s) as [v|]; [|discriminate].
        injection Hon as ->. apply Hshape.
      - rewrite H in Hoff. destruct (last_value "off" s) as [v|]; [|discriminate].
        injection Hoff as ->. apply Hshape. }
    rewrite List.Forall_forall in Hall. destruct (Hall r Hin) as [Hsub Hh].
    repeat split; try lia; auto.
    apply (sublist_NoDup (days r) VALID_DAYS); [|exact Hsub].
    apply (bool_decide_unpack _). vm_compute. exact I.
Qed.

Lemma parsed_schedule_shape_witness :
  is_Some (sched_str (Schedule (Some (weekdays_at 7)) (Some (weekdays_at 19))
                        {["tz" := "pst"]}) !! "tz").
Proof.
  refine (proj1 (parsed_schedule_shape "off=(m-f,19);on=(m-f,7);tz=pst"
                   (Schedule (Some (weekdays_at 7)) (Some (weekdays_at 19))
                      {["tz" := "pst"]}) _)).
  vm_compute. reflexivity.
Defined.

(** * Further properties of the evaluator *)

Section EvaluatorMore.

(** [process_current_time] step by step, for any state. *)
Lemma process_current_time_steps sys self parts w :
  process_current_time sys self parts w
  = match parse_or_default parts w with
    | (Returns (Some parsed), w1) =>
        match get_local_tz sys self [format_tz (sched_str parsed !! "tz")] with
        | Returns (Some tz) =>
            let now := truncate (clock sys (reads w1) tz) in
            let w2 := World (cache w1) (S (reads w1)) in
            if negb (weekends self)
               && ((Datetime.weekday now =? 5) || (Datetime.weekday now =? 6))
            then (Returns false, w2)
            else if is_custom parsed
            then (get_custom_time self now parsed, w2)
            else sentinel_path sys self tz now w2
        | Returns None => (Returns false, w1)
        | Raises e => (Raises e, w1)
        end
    | (Returns None, w1) => (Raises AttributeError, w1)
    | (Raises e, w1) => (Raises e, w1)
    end.
Proof.
  unfold process_current_time, bind at 1.
  destruct (parse_or_default parts w) as [[[parsed|]|e] w1]; try reflexivity.
  unfold bind at 1, lift at 1.
  destruct (get_local_tz sys self _) as [[tz|]|e]; try reflexivity.
  unfold bind at 1, datetime_now at 1. cbn [cache reads].
  unfold bind at 1, lift at 1. rewrite truncate_replace. cbv zeta.
  destruct (negb (weekends self) && _); [reflexivity|].
  destruct (is_custom parsed); reflexivity.
Qed.

Lemma sentinel_path_world sys self tz now w :
  snd (sentinel_path sys self tz now w) = World (cache w) (S (reads w)).
Proof.
  unfold sentinel_path, bind. rewrite get_sentinel_time_eq.
  destruct (sentinel_of self (clock sys (reads w) tz)) as [st|]; [|reflexivity].
  destruct (Datetime.eqb st now); [reflexivity|].
  destruct (skew self =? 0); reflexivity.
Qed.

Lemma sentinel_path_result sys self tz now c c' n :
  fst (sentinel_path sys self tz now (World c n))
  = fst (sentinel_path sys self tz now (World c' n)).
Proof.
  unfold sentinel_path, bind. rewrite !get_sentinel_time_eq. cbn [reads].
  destruct (sentinel_of self (clock sys n tz)) as [st|]; [|reflexivity].
  destruct (Datetime.eqb st now); [reflexivity|].
  destruct (skew self =? 0); reflexivity.
Qed.

(** [parse] never reads the clock and never changes an entry of the cache. *)
Lemma parse_effect s w :
  reads (snd (parse s w)) = reads w
  /\ forall k v, cache w !! k = Some v -> cache (snd (parse s w)) !! k = Some v.
Proof.
  unfold parse, ScheduleParser.parse.
  destruct (cache w !! s) as [r|] eqn:E; cbn [snd cache reads].
  - now split.
  - destruct (ScheduleParser.parse_uncached s); cbn [snd cache reads];
      split; try reflexivity; auto.
    intros k v Hk. rewrite lookup_insert_ne; [assumption | congruence].
Qed.

Lemma parse_or_default_effect parts w :
  reads (snd (parse_or_default parts w)) = reads w
  /\ forall k v, cache w !! k = Some v ->
                 cache (snd (parse_or_default parts w)) !! k = Some v.
Proof.
  unfold parse_or_default, try_except, bind.
  destruct parts as [|p rest].
  - cbn [raise]. apply parse_effect.
  - destruct (parse_effect p w) as [Hr Hc].
    destruct (parse p w) as [[[s|]|e] w1]; cbn [snd] in Hr, Hc; cbn [ret raise].
    + now split.
    + destruct (parse_effect "" w1) as [Hr' Hc']. split; [congruence | auto].
    + destruct (parse_effect "" w1) as [Hr' Hc']. split; [congruence | auto].
Qed.

Lemma process_current_time_effect sys self parts w :
  (reads w <= reads (snd (process_current_time sys self parts w)) <= reads w + 2)%nat
  /\ forall k v, cache w !! k = Some v ->
                 cache (snd (process_current_time sys self parts w)) !! k = Some v.
Proof.
  rewrite process_current_time_steps.
  destruct (parse_or_default_effect parts w) as [Hr Hc].
  destruct (parse_or_default parts w) as [[[parsed|]|e] w1];
    cbn [snd] in Hr, Hc; try (cbn [snd]; split; [lia | assumption]).
  destruct (get_local_tz sys self _) as [[tz|]|e];
    try (cbn [snd]; split; [lia | assumption]).
  cbv zeta. destruct (negb (weekends self) && _);
    [cbn [snd reads cache]; split; [lia | assumption]|].
  destruct (is_custom parsed);
    [cbn [snd reads cache]; split; [lia | assumption]|].
  rewrite sentinel_path_world. cbn [reads cache]. split; [lia | assumption].
Qed.

End EvaluatorMore.

(** One evaluation reads the clock at most twice, and every entry the
    parser cache held before is still there, unchanged, afterwards. *)
Theorem call_effects :
  forall (sys : system) (self : filter) (i : resource) (w : world),
    (reads w <= reads (snd (call sys self i w)) <= reads w + 2)%nat
    /\ forall k v, cache w !! k = Some v ->
                   cache (snd (call sys self i w)) !! k = Some v.
Proof.
  intros sys self i w.
  destruct (fst (get_tag_parts self i)) as [parts|] eqn:Ep.
  - rewrite (call_present_tag _ _ _ _ Ep).
    destruct (Py.mem "off" parts);
      [cbn [ret snd]; split; [lia | auto]
      | apply process_current_time_effect].
  - rewrite (call_missing_tag _ _ _ Ep).
    destruct (opt_out self);
      [apply process_current_time_effect
      | cbn [ret snd]; split; [lia | auto]].
Qed.

(** When the timezone database does not know the zone of the schedule, the
    filter answers false and does not read the clock. *)
Theorem unknown_timezone_no_match :
  forall (sys : system) (self : filter) (parts : list string) (w : world)
         (t : string),
    cache_ok (cache w) ->
    sched_str (effective_schedule parts) !! "tz" = Some t ->
    gettz sys (zone_name t) = None ->
    fst (process_current_time sys self parts w) = Returns false
    /\ reads (snd (process_current_time sys self parts w)) = reads w.
Proof.
  intros sys self parts w t Hc Ht Htz.
  destruct (process_current_time_eq sys self parts w t Hc Ht) as (c & _ & ->).
  rewrite Htz. now split.
Qed.

(** A tag whose first token does not parse to a valid schedule is evaluated
    like a tag without tokens, that is with the default schedule: the
    answer is the same, exception included. *)
Theorem malformed_tag_uses_defaults :
  forall (sys : system) (self : filter) (i : resource) (w : world)
         (p : string) (rest : list string),
    cache_ok (cache w) ->
    fst (get_tag_parts self i) = Some (p :: rest) ->
    Py.mem "off" (p :: rest) = false ->
    ScheduleParser.parse_uncached p = Returns None ->
    fst (call sys self i w) = fst (process_current_time sys self [] w).
Proof.
  intros sys self i w p rest Hc Hparts Hoff Hbad.
  rewrite (call_present_tag _ _ _ _ Hparts), Hoff.
  assert (Heff : effective_schedule (p :: rest) = effective_schedule [])
    by (unfold effective_schedule; now rewrite Hbad).
  destruct (effective_schedule_tz []) as (t & Ht & _).
  destruct (process_current_time_eq sys self [] w t Hc Ht) as (c1 & _ & ->).
  destruct (process_current_time_eq sys self (p :: rest) w t Hc) as (c2 & _ & ->);
    [now rewrite Heff|].
  rewrite Heff.
  destruct (gettz sys (zone_name t)) as [tz|]; [|reflexivity].
  cbv zeta. destruct (negb (weekends self) && _); [reflexivity|].
  destruct (is_custom (effective_schedule [])); [reflexivity|].
  apply sentinel_path_result.
Qed.

Lemma unknown_timezone_no_match_witness :
  fst (process_current_time no_zones (Filter OffHour no_options) ["tz=mars"]
         empty_world) = Returns false
  /\ reads (snd (process_current_time no_zones (Filter OffHour no_options)
                   ["tz=mars"] empty_world)) = reads empty_world.
Proof.
  apply (unknown_timezone_no_match no_zones (Filter OffHour no_options)
           ["tz=mars"] empty_world "mars").
  - exact cache_ok_empty.
  - vm_compute. reflexivity.
  - reflexivity.
Defined.

Lemma malformed_tag_uses_defaults_witness :
  fst (call (monday_at 19) (Filter OffHour no_options)
         (tagged "off=(m-z,21);on=(m-f,7) later") empty_world)
  = fst (process_current_time (monday_at 19) (Filter OffHour no_options) []
           empty_world).
Proof.
  apply (malformed_tag_uses_defaults (monday_at 19) (Filter OffHour no_options)
           (tagged "off=(m-z,21);on=(m-f,7) later") empty_world
           "off=(m-z,21);on=(m-f,7)" ["later"]).
  - exact cache_ok_empty.
  - vm_compute. reflexivity.
  - vm_compute. reflexivity.
  - vm_compute. reflexivity.
Defined.

Lemma sentinel_of_decision self t :
  sentinel_of self t
  = if sentinel_options_ok self
    then Returns (DateTime (dt_date t) (sentinel_hour self)
                    (default 0 (opt_minute (data self))) 0 0)
    else Raises ValueError.
Proof.
  unfold sentinel_of, sentinel_options_ok, sentinel_hour, Datetime.replace.
  change (Datetime.in_range 0 59 (Some 0)) with true.
  change (Datetime.in_range 0 999999 (Some 0)) with true.
  change (Datetime.in_range 0 59 None) with true.
  change (Datetime.in_range 0 999999 None) with true.
  rewrite !andb_true_r.
  destruct (cls self);
    repeat match goal with
      | |- context [Datetime.in_range ?a ?b (Some ?v)] =>
          destruct (Datetime.in_range a b (Some v)); cbn [andb rbind]
      end;
    reflexivity.
Qed.

(** [get_sentinel_time] takes one clock reading and leaves the cache alone.
    It returns that day at the variant's hour ([offhour] or 19, [onhour] or
    7, [hour] or 0 for the base class) and at the [minute] option, seconds
    zeroed, and raises a [ValueError] exactly when the variant's hour, the
    [hour] option (read by every variant) or the [minute] option is out of
    range; so an [offhour] of 24 raises. *)
Theorem get_sentinel_time_decision :
  forall (sys : system) (self : filter) (tz : tzinfo) (w : world),
    get_sentinel_time sys self tz w
    = (if sentinel_options_ok self
       then Returns (DateTime (dt_date (clock sys (reads w) tz))
                       (sentinel_hour self)
                       (default 0 (opt_minute (data self))) 0 0)
       else Raises ValueError,
       World (cache w) (S (reads w))).
Proof.
  intros sys self tz w.
  unfold get_sentinel_time, base_sentinel_time, bind, lift, datetime_now.
  pose proof (sentinel_of_decision self (clock sys (reads w) tz)) as Hd.
  unfold sentinel_of in Hd. cbn [cache reads].
  destruct (cls self);
    destruct (Datetime.replace _ _ (Some 0) (Some 0) (clock sys (reads w) tz));
    cbn [rbind] in Hd; rewrite <- Hd; reflexivity.
Qed.

(** On the sentinel path (schedule not custom, zone resolved, no skipped
    weekend, [minute] option at 0, both clock readings on one day) the
    answer is decided by the sentinel hour [h], the skew [k] and the hour of
    now: a match at [h] and, for a positive skew, at the hours up to
    [min (h + k) 23]; no match elsewhere when [h + k <= 23] or the skew is
    not positive; a [ValueError] elsewhere when [h + k > 23], and also
    whenever the options give no valid sentinel time. *)
Theorem sentinel_window :
  forall (sys : system) (self : filter) (parts : list string) (w : world)
         (t : string) (tz : tzinfo),
    cache_ok (cache w) ->
    sched_str (effective_schedule parts) !! "tz" = Some t ->
    gettz sys (zone_name t) = Some tz ->
    is_custom (effective_schedule parts) = false ->
    (weekends self = true
     \/ (Datetime.weekday (clock sys (reads w) tz) <> 5
         /\ Datetime.weekday (clock sys (reads w) tz) <> 6)) ->
    default 0 (opt_minute (data self)) = 0 ->
    dt_date (clock sys (S (reads w)) tz) = dt_date (clock sys (reads w) tz) ->
    fst (process_current_time sys self parts w)
    = if sentinel_options_ok self
      then window_decision (sentinel_hour self) (skew self)
             (dt_hour (clock sys (reads w) tz))
      else Raises ValueError.
Proof.
  intros sys self parts w t tz Hc Ht Htz Hcustom Hwk Hmin Hdate.
  destruct (process_current_time_eq sys self parts w t Hc Ht) as (c & _ & ->).
  rewrite Htz. cbv zeta.
  change (Datetime.weekday (truncate (clock sys (reads w) tz)))
    with (Datetime.weekday (clock sys (reads w) tz)).
  assert (Hno : negb (weekends self)
                && ((Datetime.weekday (clock sys (reads w) tz) =? 5)
                    || (Datetime.weekday (clock sys (reads w) tz) =? 6)) = false).
  { destruct Hwk as [-> | [H5 H6]]; [reflexivity|].
    apply Z.eqb_neq in H5, H6. rewrite H5, H6. apply andb_false_r. }
  rewrite Hno, Hcustom.
  pose proof (sentinel_of_decision self (clock sys (S (reads w)) tz)) as Hst.
  destruct (sentinel_options_ok self).
  - rewrite (sentinel_path_decision sys self tz (World c (S (reads w))) _ Hmin Hst)
      by (symmetry; exact Hdate).
    reflexivity.
  - unfold sentinel_path, bind. rewrite get_sentinel_time_eq. cbn [reads].
    now rewrite Hst.
Qed.

Lemma sentinel_window_witness :
  fst (process_current_time (monday_at 23) (Filter OffHour (offhour_skew 22 3))
         [] empty_world) = Returns true.
Proof.
  apply (sentinel_window (monday_at 23) (Filter OffHour (offhour_skew 22 3)) []
           empty_world "et" "America/New_York").
  - exact cache_ok_empty.
  - reflexivity.
  - reflexivity.
  - reflexivity.
  - right. split; discriminate.
  - reflexivity.
  - reflexivity.
Defined.

Section LocalTz.

Local Arguments Ascii.eqb : simpl never.
Local Arguments ascii_dec : simpl never.



End LocalTz.




Section Tokens.

Lemma all_chars_app P s1 s2 :
  all_chars P (s1 +:+ s2) = all_chars P s1 && all_chars P s2.
Proof.
  unfold all_chars. induction s1 as [|a s1 IH]; simpl; [reflexivity|].
  rewrite <- andb_assoc. f_equal. exact IH.
Qed.

Lemma all_chars_snoc P cur c :
  all_chars P cur = true -> P c = true -> all_chars P (Py.snoc cur c) = true.
Proof.
  intros Hcur Hc. unfold Py.snoc. rewrite all_chars_app, Hcur.
  unfold all_chars. simpl. now rewrite Hc.
Qed.

Lemma all_chars_cons P c s :
  all_chars P (String c s) = true -> P c = true /\ all_chars P s = true.
Proof. unfold all_chars. simpl. intros H. now apply andb_true_iff in H. Qed.

Lemma lstrip_all P chars s :
  all_chars P s = true -> all_chars P (Py.lstrip chars s) = true.
Proof.
  induction s as [|c s IH]; [trivial|]. intros H. cbn [Py.lstrip].
  destruct (Py.mem_ascii c chars); [|exact H].
  apply IH. now apply all_chars_cons in H.
Qed.

Lemma rstrip_all P chars s :
  all_chars P s = true -> all_chars P (Py.rstrip chars s) = true.
Proof.
  induction s as [|c s IH]; [trivial|]. intros H.
  apply all_chars_cons in H as [Hc Hs]. specialize (IH Hs).
  cbn [Py.rstrip]. destruct (Py.rstrip chars s) as [|c' r].
  - destruct (Py.mem_ascii c chars); [reflexivity|].
    unfold all_chars. simpl. now rewrite Hc.
  - unfold all_chars in *. simpl in *. now rewrite Hc.
Qed.

Lemma split_ws_all P s :
  forall cur,
    all_chars P cur = true -> all_chars P s = true ->
    Forall (fun t => all_chars P t = true) (Py.split_ws_from cur s).
Proof.
  induction s as [|c s IH]; intros cur Hcur Hs.
  - simpl. destruct cur; [constructor | now repeat constructor].
  - apply all_chars_cons in Hs as [Hc Hs]. cbn [Py.split_ws_from].
    destruct (Py.mem_ascii c Py.whitespace).
    + destruct cur; cbn [Py.flush];
        [|constructor; [assumption|]]; now apply IH.
    + apply IH; [now apply all_chars_snoc | assumption].
Qed.

Lemma snoc_nonempty cur c : Py.snoc cur c <> EmptyString.
Proof. destruct cur; discriminate. Qed.

Lemma split_ws_tokens s :
  forall cur,
    all_chars (fun c => negb (is_space c)) cur = true ->
    Forall (fun t => t <> EmptyString
                     /\ all_chars (fun c => negb (is_space c)) t = true)
      (Py.split_ws_from cur s).
Proof.
  induction s as [|c s IH]; intros cur Hcur.
  - simpl. destruct cur; [constructor|].
    constructor; [split; [discriminate | assumption] | constructor].
  - cbn [Py.split_ws_from]. destruct (Py.mem_ascii c Py.whitespace) eqn:Ec.
    + destruct cur; cbn [Py.flush]; [now apply IH|].
      constructor; [split; [discriminate | assumption] | now apply IH].
    + apply IH. apply all_chars_snoc; [assumption|].
      unfold is_space. now rewrite Ec.
Qed.

Lemma lower_ascii_lowered c : is_lowered (Py.lower_ascii c) = true.
Proof.
  destruct c as [[] [] [] [] [] [] [] []]; vm_compute; reflexivity.
Qed.

Lemma lower_all s : all_chars is_lowered (Py.lower s) = true.
Proof.
  induction s as [|c s IH]; [reflexivity|].
  unfold all_chars in *. cbn [Py.lower list_ascii_of_string forallb].
  now rewrite lower_ascii_lowered.
Qed.

Lemma lowered_fixed t : all_chars is_lowered t = true -> Py.lower t = t.
Proof.
  induction t as [|c t IH]; [reflexivity|]. intros H.
  apply all_chars_cons in H as [Hc Ht]. cbn [Py.lower].
  unfold is_lowered in Hc. apply Ascii.eqb_eq in Hc. rewrite Hc.
  f_equal. now apply IH.
Qed.

Lemma filter_none_Forall (Q : string -> Prop) l :
  Forall Q l -> Forall Q (Py.filter_none l).
Proof.
  unfold Py.filter_none. induction 1 as [|x l Hx _ IH]; simpl; [constructor|].
  destruct (negb _); [now constructor | assumption].
Qed.

Lemma get_tag_parts_tokens self i parts :
  fst (get_tag_parts self i) = Some parts ->
  exists v, tag_value self i = Some v /\ parts = tokens_of v.
Proof.
  unfold tag_value, get_tag_parts, tokens_of.
  destruct (build_tag_map _ !! _) as [v|] eqn:E; cbn [fst snd]; [|discriminate].
  intros [= <-]. eauto.
Qed.


End Tokens.

(** The tokens [get_tag_parts] returns are never empty, hold no whitespace
    and are in lower case, however the tag value is written; so the
    disabling token is recognised as [OFF], [Off] or [off] alike. *)
Theorem tag_tokens_normalised :
  forall (self : filter) (i : resource) (parts : list string) (t : string),
    fst (get_tag_parts self i) = Some parts ->
    In t parts ->
    t <> EmptyString
    /\ all_chars (fun c => negb (is_space c)) t = true
    /\ Py.lower t = t.
Proof.
  intros self i parts t Hparts Hin.
  destruct (get_tag_parts_tokens _ _ _ Hparts) as (v & _ & ->).
  unfold tokens_of in Hin.
  set (value := Py.strip Py.dquote (Py.strip "'" (Py.lower v))) in Hin.
  assert (Hlow : all_chars is_lowered value = true).
  { unfold value, Py.strip.
    repeat first [apply rstrip_all | apply lstrip_all]. apply lower_all. }
  assert (H1 : Forall (fun t => t <> EmptyString
                                /\ all_chars (fun c => negb (is_space c)) t = true)
                 (Py.filter_none (Py.split_ws value)))
    by (apply filter_none_Forall, split_ws_tokens; reflexivity).
  assert (H2 : Forall (fun t => all_chars is_lowered t = true)
                 (Py.filter_none (Py.split_ws value)))
    by (apply filter_none_Forall, split_ws_all; [reflexivity | assumption]).
  rewrite List.Forall_forall in H1, H2.
  destruct (H1 t Hin) as [Hne Hws]. repeat split; try assumption.
  apply lowered_fixed. now apply H2.
Qed.

Lemma tag_tokens_normalised_witness :
  "off" <> EmptyString
  /\ all_chars (fun c => negb (is_space c)) "off" = true
  /\ Py.lower "off" = "off".
Proof.
  apply (tag_tokens_normalised (Filter OffHour no_options)
           (tagged "'TZ=PT  OFF'") ["tz=pt"; "off"] "off").
  - vm_compute. reflexivity.
  - simpl. auto.
Defined.


(** [parse] memoizes: after a call the cache holds the returned result
    under the raw string, and every other key of the cache is as it was
    (nothing is evicted, nothing else is added); a string already in the
    cache is answered from it and the cache is not touched. *)
Theorem parse_memoizes :
  forall (s : string) (c : gmap string (option schedule)),
    (exists r, fst (ScheduleParser.parse s c) = Returns r
               /\ snd (ScheduleParser.parse s c) !! s = Some r)
    /\ (forall k, k <> s -> snd (ScheduleParser.parse s c) !! k = c !! k)
    /\ (is_Some (c !! s) -> snd (ScheduleParser.parse s c) = c).
Proof.
  intros s c. unfold ScheduleParser.parse.
  destruct (c !! s) as [r|] eqn:E.
  - cbn [fst snd]. repeat split; eauto.
  - destruct (parse_uncached_returns s) as [r ->]. cbn [fst snd].
    split; [|split].
    + exists r. split; [reflexivity | apply lookup_insert_eq].
    + intros k Hk. now rewrite lookup_insert_ne.
    + intros [x Hx]. discriminate.
Qed.

(** ** A resource without the tag *)


